(** * BetSmart AIV2: the quota-reset estimator, the fetchers and the odds normaliser

    A shallow embedding of [betsmart_aiv2.py].  Python objects obtained from
    [response.json()] are values of the type [Py.value]; Python exceptions are
    the [Raise] outcomes of an error monad; [datetime] objects are records with
    the arithmetic of CPython's [datetime] module written out.

    The definitions come first: [Py], [Datetime], [QuotaReset], [Strftime],
    [Fetcher] and [Normalizer] follow the source; [Traversal], [Endpoints],
    [Shape], [Examples] and [Domain] hold what the statements are written
    with.  The facts follow, one module for each part of the program. *)

From Stdlib Require Import ZArith List String Ascii Bool Lia QArith.
From Stdlib Require Import Floats.PrimFloat.
Import ListNotations.

#[local] Set Warnings "-inexact-float,-register-all".

Local Open Scope Z_scope.

(* ================================================================== *)
(** ** Python values, exceptions and the operations the program applies *)
(* ================================================================== *)

Module Py.

(** The exception classes the modelled code can raise. [RequestException]
    stands for whatever [requests.get] raises when no response is obtained
    (ConnectionError, Timeout, ...); [OSError] is what CPython makes of a
    failing call of the C library. *)
Inductive exn : Type :=
| AttributeError
| TypeError
| KeyError (key : string)
| ValueError
| OverflowError
| OSError
| JSONDecodeError
| RequestException.

(** An evaluation either returns a value or raises. *)
Inductive result (A : Type) : Type :=
| Ok (a : A)
| Raise (e : exn).

Arguments Ok {A} a.
Arguments Raise {A} e.

Definition bind {A B : Type} (m : result A) (k : A -> result B) : result B :=
  match m with
  | Ok a => k a
  | Raise e => Raise e
  end.

Definition raises {A : Type} (m : result A) : Prop :=
  exists e, m = Raise e.

(** What [json.loads] builds: [None], [bool], [int], [float], [str], [list]
    and [dict] with string keys, in insertion order (each key once). *)
Inductive value : Type :=
| PNone
| PBool (b : bool)
| PInt (n : Z)
| PFloat (x : float)
| PStr (s : string)
| PList (items : list value)
| PDict (entries : list (string * value)).

Fixpoint lookup (key : string) (entries : list (string * value)) : option value :=
  match entries with
  | [] => None
  | (k, v) :: rest => if String.eqb key k then Some v else lookup key rest
  end.

(** [o.get(key, default)]: only a [dict] has the method. *)
Definition get (o : value) (key : string) (default : value) : result value :=
  match o with
  | PDict entries =>
      match lookup key entries with
      | Some v => Ok v
      | None => Ok default
      end
  | _ => Raise AttributeError
  end.

(** [o[key]] with a string key: [KeyError] on a dict without the key,
    [TypeError] on every other JSON value. *)
Definition getitem (o : value) (key : string) : result value :=
  match o with
  | PDict entries =>
      match lookup key entries with
      | Some v => Ok v
      | None => Raise (KeyError key)
      end
  | _ => Raise TypeError
  end.

Fixpoint chars (s : string) : list value :=
  match s with
  | EmptyString => []
  | String c rest => PStr (String c EmptyString) :: chars rest
  end.

(** The sequence a [for] loop walks: the items of a list, the keys of a
    dict, the characters of a string; other values are not iterable. *)
Definition iter (o : value) : result (list value) :=
  match o with
  | PList items => Ok items
  | PDict entries => Ok (map (fun kv => PStr (fst kv)) entries)
  | PStr s => Ok (chars s)
  | _ => Raise TypeError
  end.

(** [o == "literal"]: true only for the equal string. *)
Definition eq_str (o : value) (s : string) : bool :=
  match o with
  | PStr s' => String.eqb s' s
  | _ => false
  end.

(** [o in [lit1, lit2, ...]] for a list of string literals. *)
Definition in_strs (o : value) (lits : list string) : bool :=
  existsb (eq_str o) lits.

(** A loop [for x in xs: body] whose body updates a state and may raise. *)
Fixpoint for_each {A S : Type} (body : A -> S -> result S) (xs : list A) (s : S)
  : result S :=
  match xs with
  | [] => Ok s
  | x :: rest =>
      match body x s with
      | Ok s' => for_each body rest s'
      | Raise e => Raise e
      end
  end.

End Py.

Import Py.

Notation "x <- m ;; k" := (bind m (fun x => k))
  (at level 61, m at next level, right associativity).

(* ================================================================== *)
(** ** The fragment of [datetime] the program uses *)
(* ================================================================== *)

Module Datetime.

Record datetime : Type := mk_datetime {
  year : Z;
  month : Z;
  day : Z;
  hour : Z;
  minute : Z;
  second : Z;
  microsecond : Z
}.

Definition is_leap (y : Z) : bool :=
  (y mod 4 =? 0) && (negb (y mod 100 =? 0) || (y mod 400 =? 0)).

(** The tables [_DAYS_IN_MONTH] and [_DAYS_BEFORE_MONTH] (non-leap year). *)
Definition DAYS_IN_MONTH (m : Z) : Z :=
  match m with
  | 1 => 31
  | 2 => 28
  | 3 => 31
  | 4 => 30
  | 5 => 31
  | 6 => 30
  | 7 => 31
  | 8 => 31
  | 9 => 30
  | 10 => 31
  | 11 => 30
  | 12 => 31
  | _ => 0
  end.

Definition DAYS_BEFORE_MONTH (m : Z) : Z :=
  match m with
  | 1 => 0
  | 2 => 31
  | 3 => 59
  | 4 => 90
  | 5 => 120
  | 6 => 151
  | 7 => 181
  | 8 => 212
  | 9 => 243
  | 10 => 273
  | 11 => 304
  | 12 => 334
  | _ => 0
  end.

Definition days_in_month (y m : Z) : Z :=
  if (m =? 2) && is_leap y then 29 else DAYS_IN_MONTH m.

Definition days_before_month (y m : Z) : Z :=
  DAYS_BEFORE_MONTH m + (if (2 <? m) && is_leap y then 1 else 0).

Definition days_before_year (y : Z) : Z :=
  let p := y - 1 in p * 365 + p / 4 - p / 100 + p / 400.

(** [toordinal()]: day 1 is 0001-01-01. *)
Definition ymd2ord (y m d : Z) : Z :=
  days_before_year y + days_before_month y m + d.

Definition MINYEAR : Z := 1.
Definition MAXYEAR : Z := 9999.
Definition MAXORDINAL : Z := 3652059.

Definition valid_date (y m d : Z) : bool :=
  (MINYEAR <=? y) && (y <=? MAXYEAR) && (1 <=? m) && (m <=? 12)
  && (1 <=? d) && (d <=? days_in_month y m).

Definition valid_time (hh mm ss us : Z) : bool :=
  (0 <=? hh) && (hh <=? 23) && (0 <=? mm) && (mm <=? 59)
  && (0 <=? ss) && (ss <=? 59) && (0 <=? us) && (us <=? 999999).

(** The fields of a [datetime] object are always in range. *)
Definition valid (t : datetime) : bool :=
  valid_date (year t) (month t) (day t)
  && valid_time (hour t) (minute t) (second t) (microsecond t).

(** [datetime(year, month, day, hour, minute, second)]: the constructor
    checks every field and raises [ValueError] on one out of range. *)
Definition new (y m d hh mm ss : Z) : result datetime :=
  if valid_date y m d && valid_time hh mm ss 0
  then Ok (mk_datetime y m d hh mm ss 0)
  else Raise ValueError.

(** [fromordinal]: the inverse of [ymd2ord], by 400-, 100-, 4- and 1-year
    cycles as in CPython's [_ord2ymd]. *)
Definition ord2ymd (ordinal : Z) : Z * Z * Z :=
  let n := ordinal - 1 in
  let n400 := n / 146097 in
  let n := n mod 146097 in
  let n100 := n / 36524 in
  let n := n mod 36524 in
  let n4 := n / 1461 in
  let n := n mod 1461 in
  let n1 := n / 365 in
  let n := n mod 365 in
  let y := n400 * 400 + 1 + n100 * 100 + n4 * 4 + n1 in
  if (n1 =? 4) || (n100 =? 4) then (y - 1, 12, 31)
  else
    let leapyear := (n1 =? 3) && (negb (n4 =? 24) || (n100 =? 3)) in
    let m := Z.shiftr (n + 50) 5 in
    let preceding :=
      DAYS_BEFORE_MONTH m + (if (2 <? m) && leapyear then 1 else 0) in
    if n <? preceding
    then
      let m' := m - 1 in
      let preceding' :=
        preceding
        - (DAYS_IN_MONTH m' + (if (m' =? 2) && leapyear then 1 else 0)) in
      (y, m', n - preceding' + 1)
    else (y, m, n - preceding + 1).

(** Comparison of two naive datetimes: lexicographic on the seven fields. *)
Fixpoint lex_ltb (a b : list Z) : bool :=
  match a, b with
  | x :: a', y :: b' => (x <? y) || ((x =? y) && lex_ltb a' b')
  | _, _ => false
  end.

Definition fields (t : datetime) : list Z :=
  [year t; month t; day t; hour t; minute t; second t; microsecond t].

Definition ltb (a b : datetime) : bool := lex_ltb (fields a) (fields b).

(** A [timedelta], normalised: [0 <= seconds < 86400] and
    [0 <= microseconds < 1000000]. *)
Record timedelta : Type := mk_timedelta {
  td_days : Z;
  td_seconds : Z;
  td_microseconds : Z
}.

Definition US_PER_SECOND : Z := 1000000.
Definition US_PER_DAY : Z := 86400 * US_PER_SECOND.

Definition timedelta_new (days seconds microseconds : Z) : timedelta :=
  let total := (days * 86400 + seconds) * US_PER_SECOND + microseconds in
  mk_timedelta (total / US_PER_DAY)
               (total mod US_PER_DAY / US_PER_SECOND)
               (total mod US_PER_SECOND).

Definition hours (n : Z) : timedelta := timedelta_new 0 (n * 3600) 0.

(** The duration as a whole number of microseconds. *)
Definition td_total_us (d : timedelta) : Z :=
  (td_days d * 86400 + td_seconds d) * US_PER_SECOND + td_microseconds d.

(** [total_seconds()]: the duration in seconds. Python returns the double
    nearest to this rational, which has the same sign. *)
Definition total_seconds (d : timedelta) : Q :=
  Qmake (td_total_us d) 1000000.

Definition toordinal (t : datetime) : Z := ymd2ord (year t) (month t) (day t).

Definition second_of_day (t : datetime) : Z :=
  second t + minute t * 60 + hour t * 3600.

(** [a - b] for two naive datetimes. *)
Definition sub (a b : datetime) : timedelta :=
  timedelta_new (toordinal a - toordinal b)
                (second_of_day a - second_of_day b)
                (microsecond a - microsecond b).

(** [t + delta]: [OverflowError] when the date leaves years 1 to 9999. *)
Definition add (t : datetime) (delta : timedelta) : result datetime :=
  let sum := timedelta_new (toordinal t + td_days delta)
                           (second_of_day t + td_seconds delta)
                           (microsecond t + td_microseconds delta) in
  let hh := td_seconds sum / 3600 in
  let rem := td_seconds sum mod 3600 in
  if (0 <? td_days sum) && (td_days sum <=? MAXORDINAL)
  then
    let '(y, m, d) := ord2ymd (td_days sum) in
    Ok (mk_datetime y m d hh (rem / 60) (rem mod 60) (td_microseconds sum))
  else Raise OverflowError.

(** Position of an instant on the microsecond axis that [sub] measures. *)
Definition to_us (t : datetime) : Z :=
  (toordinal t * 86400 + second_of_day t) * US_PER_SECOND + microsecond t.

End Datetime.

(* ================================================================== *)
(** ** Quota reset estimator *)
(* ================================================================== *)

Module QuotaReset.

Import Datetime.

(** [get_api_reset_time], as a function of the instant [datetime.utcnow()]
    returns inside it. ([st.cache_data(ttl=600)] stores a returned value and
    serves it for ten minutes; an exception is not stored.) *)
Definition get_api_reset_time (now : datetime) : result datetime :=
  let reset_hour := (hour now / 8 + 1) * 8 in
  reset_time <- new (year now) (month now) (day now) reset_hour 0 0 ;;
  if ltb reset_time now
  then add reset_time (hours 8)
  else Ok reset_time.

(** [get_remaining_time]. The clock is read twice: [clock1] is the instant
    the body of [get_api_reset_time] saw (at this call, or up to 600 seconds
    earlier when [st.cache_data] serves the stored result), [clock2] is the
    [datetime.utcnow()] evaluated for the subtraction. *)
Definition get_remaining_time (clock1 clock2 : datetime) : result Q :=
  reset_time <- get_api_reset_time clock1 ;;
  Ok (total_seconds (sub reset_time clock2)).

End QuotaReset.

(* ================================================================== *)
(** ** Text rendering of dates and times ([strftime]) *)
(* ================================================================== *)

Module Strftime.

Import Datetime.

Local Open Scope string_scope.

Definition digit (n : Z) : ascii := ascii_of_nat (48 + Z.to_nat n).

(** A field printed on two decimal digits, zero padded ([%H], [%M], [%m], [%d]). *)
Definition two_digits (n : Z) : string :=
  String (digit (n / 10 mod 10)) (String (digit (n mod 10)) EmptyString).

(** [%Y] for the years 1000 to 9999. *)
Definition four_digits (n : Z) : string :=
  two_digits (n / 100) ++ two_digits (n mod 100).

(** [t.strftime("%H:%M")] *)
Definition strftime_HM (t : datetime) : string :=
  two_digits (hour t) ++ ":" ++ two_digits (minute t).

(** [t.strftime("%Y-%m-%d")] *)
Definition strftime_Ymd (t : datetime) : string :=
  four_digits (year t) ++ "-" ++ two_digits (month t) ++ "-" ++ two_digits (day t).

End Strftime.

(* ================================================================== *)
(** ** Remote data fetcher *)
(* ================================================================== *)

Module Fetcher.

Import Datetime Strftime.

Local Open Scope string_scope.

(** What the code reads of a [requests.Response]: the status code, and the
    outcome of [response.json()], which raises when the body is not JSON. *)
Record response : Type := mk_response {
  status_code : Z;
  json : result value
}.

Definition BASE_URL : string := "https://v3.football.api-sports.io".

Section Transport.

(** The key read from the Streamlit secrets. *)
Variable API_KEY : string.

(** [requests.get(url, headers=headers)]: a response, or the exception the
    transport raises when it obtains none. *)
Variable requests_get : string -> list (string * string) -> result response.

Definition get_matches (now : datetime) : result value :=
  let today := strftime_Ymd now in
  let url := BASE_URL ++ "/fixtures?date=" ++ today ++ "&timezone=UTC" in
  let headers := [("x-apisports-key", API_KEY)] in
  response <- requests_get url headers ;;
  if (status_code response =? 200)%Z
  then
    data <- json response ;;
    get data "response" (PList [])
  else Ok (PList []).

Definition get_odds (now : datetime) : result value :=
  let today := strftime_Ymd now in
  let url := BASE_URL ++ "/odds?date=" ++ today ++ "&timezone=UTC" in
  let headers := [("x-apisports-key", API_KEY)] in
  response <- requests_get url headers ;;
  if (status_code response =? 200)%Z
  then
    data <- json response ;;
    get data "response" (PList [])
  else Ok (PList []).

End Transport.

End Fetcher.

(* ================================================================== *)
(** ** Odds normaliser *)
(* ================================================================== *)

Module Normalizer.

Import Datetime Strftime.

Local Open Scope string_scope.
Local Open Scope list_scope.
Local Open Scope Z_scope.

(** What [datetime.fromtimestamp] takes from the machine it runs on: the
    offset of local time from UTC, in seconds, in force at a POSIX second
    (the time zone of the process: [TZ], [/etc/localtime]); and the
    conversion of a [float] timestamp to whole seconds and microseconds
    (CPython rounds half to even; NaN and infinities raise). *)
Record host : Type := mk_host {
  utcoffset : Z -> Z;
  timeval_of_float : float -> result (Z * Z)
}.

(** One dictionary appended to [filtered_data], with the values as the
    loops put them there. Line 84 hands the list to [pd.DataFrame], which
    keeps one row for each dictionary, in order, under the eight columns
    "Liga", "Local", "Visitante", "Hora", "Casa de Apuestas", "Mercado",
    "Seleccion" (with an accent in the source) and "Cuota". A [str] cell
    is kept as it is; pandas may convert the other cells of a column to
    the column's type (an [int] next to a [float] becomes a [float],
    [None] in a numeric column becomes NaN). That conversion is pandas'
    and is not part of this embedding: a [row] is the dictionary handed
    over. *)
Record row : Type := mk_row {
  Liga : value;
  Local_ : value;
  Visitante : value;
  Hora : string;
  Casa_de_Apuestas : value;
  Mercado : value;
  Seleccion : value;
  Cuota : value
}.

(** Ordinal of 1970-01-01, and the constants [epoch] and
    [max_fold_seconds] of CPython's [_datetimemodule.c]. *)
Definition EPOCH_ORDINAL : Z := 719163.
Definition epoch : Z := EPOCH_ORDINAL * 24 * 60 * 60.
Definition max_fold_seconds : Z := 24 * 3600.

(** A number that a C [int] holds, and one that [time_t] holds (64 bits). *)
Definition fits_int (n : Z) : bool := (- 2 ^ 31 <=? n) && (n <? 2 ^ 31).
Definition fits_time_t (n : Z) : bool := (- 2 ^ 63 <=? n) && (n <? 2 ^ 63).

(** [utc_to_seconds]: the seconds from ordinal 0 to a broken-down time;
    [ValueError] for a year outside 1 to 9999. *)
Definition utc_to_seconds (t : datetime) : result Z :=
  if (MINYEAR <=? year t) && (year t <=? MAXYEAR)
  then Ok (((ymd2ord (year t) (month t) (day t) * 24 + hour t) * 60 + minute t) * 60
           + second t)
  else Raise ValueError.

Section Host.

Variable tz : host.

(** Seconds and microseconds since the epoch denoted by the argument of
    [fromtimestamp]: an [int] (so also a [bool]) or a [float]. An [int]
    outside the platform's [time_t] raises [OverflowError]. *)
Definition timeval (timestamp : value) : result (Z * Z) :=
  match timestamp with
  | PInt n => if fits_time_t n then Ok (n, 0) else Raise OverflowError
  | PBool b => Ok (if b then 1 else 0, 0)
  | PFloat x => timeval_of_float tz x
  | _ => Raise TypeError
  end.

(** [_PyTime_localtime]: the C library's [localtime_r], the broken-down
    local time of a POSIX second (the years before 1 counted as 0, -1,
    ...). It fails, and CPython raises [OSError], when the year less 1900
    does not fit the [int] field [tm_year]. *)
Definition localtime (t : Z) : result datetime :=
  let local_secs := t + utcoffset tz t in
  let '(y, m, d) := ord2ymd (EPOCH_ORDINAL + local_secs / 86400) in
  let sod := local_secs mod 86400 in
  if fits_int (y - 1900)
  then Ok (mk_datetime y m d (sod / 3600) (sod mod 3600 / 60) (sod mod 60) 0)
  else Raise OSError.

(** [local(u)] of [_datetimemodule.c]: the local time, in seconds from
    ordinal 0, of the instant [u] seconds after ordinal 0. *)
Definition local (u : Z) : result Z :=
  let t := u - epoch in
  if fits_time_t t
  then tm <- localtime t ;; utc_to_seconds tm
  else Raise OverflowError.

(** [datetime.fromtimestamp(timestamp)], as [datetime_from_timet_and_us]
    runs it for local time on a POSIX platform: the broken-down local
    time, whose year must lie within 1 to 9999; then the probes that
    detect a repeated hour: the local time one day earlier, and, when
    the offset from UTC has decreased over that day, the local time that
    much earlier. Each probe raises like the conversion itself, so a
    timestamp on the first local day of year 1 raises [ValueError]. The
    [fold] bit that the probes compute is not kept: the program only
    formats hour and minute. *)
Definition fromtimestamp (timestamp : value) : result datetime :=
  tv <- timeval timestamp ;;
  let '(timet, us) := tv in
  tm <- localtime timet ;;
  result_seconds <- utc_to_seconds tm ;;
  probe_seconds <- local (epoch + timet - max_fold_seconds) ;;
  let transition := result_seconds - probe_seconds - max_fold_seconds in
  _ <- (if transition <? 0 then local (epoch + timet + transition) else Ok 0) ;;
  Ok (mk_datetime (year tm) (month tm) (day tm) (hour tm) (minute tm) (second tm) us).

(** The test that guards the append. *)
Definition wanted (market_name selection : value) : bool :=
  in_strs market_name ["Match Winner"; "Draw No Bet"] || eq_str selection "Draw".

(** Body of [for value in bet.get("values", [])]. *)
Definition analyze_value (league home_team away_team : value) (match_time : string)
    (bookmaker market_name : value) (val : value) (filtered_data : list row)
  : result (list row) :=
  selection <- get val "value" (PStr "N/A") ;;
  odd <- get val "odd" (PStr "N/A") ;;
  if wanted market_name selection
  then
    name <- getitem bookmaker "name" ;;
    Ok (filtered_data
          ++ [mk_row league home_team away_team match_time name market_name
                     selection odd])
  else Ok filtered_data.

(** Body of [for bet in bookmaker.get("bets", [])]. *)
Definition analyze_bet (league home_team away_team : value) (match_time : string)
    (bookmaker : value) (bet : value) (filtered_data : list row)
  : result (list row) :=
  market_name <- get bet "name" (PStr "Desconocido") ;;
  values_ <- get bet "values" (PList []) ;;
  values <- iter values_ ;;
  for_each (analyze_value league home_team away_team match_time bookmaker market_name)
           values filtered_data.

(** Body of [for bookmaker in game.get("bookmakers", [])]. *)
Definition analyze_bookmaker (league home_team away_team : value) (match_time : string)
    (bookmaker : value) (filtered_data : list row) : result (list row) :=
  bets_ <- get bookmaker "bets" (PList []) ;;
  bets <- iter bets_ ;;
  for_each (analyze_bet league home_team away_team match_time bookmaker)
           bets filtered_data.

(** Body of [for game in odds_data]. *)
Definition analyze_game (game : value) (filtered_data : list row) : result (list row) :=
  fixture <- get game "fixture" PNone ;;
  league_ <- get game "league" (PDict []) ;;
  league <- get league_ "name" (PStr "Desconocida") ;;
  teams <- get game "teams" (PDict []) ;;
  home <- get teams "home" (PDict []) ;;
  home_team <- get home "name" (PStr "Desconocido") ;;
  teams' <- get game "teams" (PDict []) ;;
  away <- get teams' "away" (PDict []) ;;
  away_team <- get away "name" (PStr "Desconocido") ;;
  timestamp <- get fixture "timestamp" (PInt 0) ;;
  kickoff <- fromtimestamp timestamp ;;
  let match_time := strftime_HM kickoff in
  bookmakers_ <- get game "bookmakers" (PList []) ;;
  bookmakers <- iter bookmakers_ ;;
  for_each (analyze_bookmaker league home_team away_team match_time)
           bookmakers filtered_data.

(** [analyze_odds(odds_data)]: the list [filtered_data] of which line 84
    makes the returned [DataFrame], one row for each dictionary. *)
Definition analyze_odds (odds_data : value) : result (list row) :=
  let filtered_data := [] in
  games <- iter odds_data ;;
  for_each analyze_game games filtered_data.

End Host.

End Normalizer.

(* ================================================================== *)
(** ** The output as the specification describes it *)
(* ================================================================== *)

Module Traversal.

Import Datetime Strftime Normalizer.

Local Open Scope string_scope.
Local Open Scope list_scope.

(** Reading a field with its default, and the items of a sequence, as total
    functions: they agree with [get] and [iter] wherever those return. *)
Definition field (o : value) (key : string) (default : value) : value :=
  match get o key default with
  | Ok v => v
  | Raise _ => default
  end.

Definition items (o : value) : list value :=
  match iter o with
  | Ok l => l
  | Raise _ => []
  end.

(** One priced selection of the input, with the market, the bookmaker
    block and the fixture record it is nested in. *)
Record quote : Type := mk_quote {
  q_game : value;
  q_bookmaker : value;
  q_bet : value;
  q_value : value
}.

Definition league_of (game : value) : value :=
  field (field game "league" (PDict [])) "name" (PStr "Desconocida").

Definition home_team_of (game : value) : value :=
  field (field (field game "teams" (PDict [])) "home" (PDict []))
        "name" (PStr "Desconocido").

Definition away_team_of (game : value) : value :=
  field (field (field game "teams" (PDict [])) "away" (PDict []))
        "name" (PStr "Desconocido").

Definition market_of (q : quote) : value :=
  field (q_bet q) "name" (PStr "Desconocido").

Definition selection_of (q : quote) : value :=
  field (q_value q) "value" (PStr "N/A").

Definition odd_of (q : quote) : value :=
  field (q_value q) "odd" (PStr "N/A").

(** The allow-list of section 4.3: the market is named exactly
    "Match Winner" or "Draw No Bet", or the selection is labelled "Draw". *)
Definition allow_listed (market_name selection : value) : Prop :=
  market_name = PStr "Match Winner"
  \/ market_name = PStr "Draw No Bet"
  \/ selection = PStr "Draw".

(** Fixture, then bookmaker, then market, then selection. *)
Definition quotes_of_game (game : value) : list quote :=
  flat_map
    (fun bookmaker =>
       flat_map
         (fun bet =>
            map (mk_quote game bookmaker bet)
                (items (field bet "values" (PList []))))
         (items (field bookmaker "bets" (PList []))))
    (items (field game "bookmakers" (PList []))).

Definition quotes (odds_data : value) : list quote :=
  flat_map quotes_of_game (items odds_data).

Section Host.

Variable tz : host.

(** The kickoff time of a fixture record as the rows show it. *)
Definition match_time_of (game : value) : string :=
  match fromtimestamp tz (field (field game "fixture" PNone) "timestamp" (PInt 0)) with
  | Ok kickoff => strftime_HM kickoff
  | Raise _ => ""
  end.


(** The row of a selection that passes the filter. *)
Definition row_of (q : quote) : row :=
  mk_row (league_of (q_game q)) (home_team_of (q_game q)) (away_team_of (q_game q))
         (match_time_of (q_game q))
         (field (q_bookmaker q) "name" PNone)
         (market_of q) (selection_of q) (odd_of q).

Definition passes (q : quote) : bool :=
  wanted (market_of q) (selection_of q).

(** What one fixture record contributes: bookmaker after bookmaker, market
    after market, selection after selection, one row for each selection
    that passes. *)
Definition rows_of_game (game : value) : list row :=
  flat_map
    (fun bookmaker =>
       flat_map
         (fun bet =>
            flat_map
              (fun val =>
                 let q := mk_quote game bookmaker bet val in
                 if passes q then [row_of q] else [])
              (items (field bet "values" (PList []))))
         (items (field bookmaker "bets" (PList []))))
    (items (field game "bookmakers" (PList []))).

(** The table in input traversal order: nothing sorted, nothing merged. *)
Definition traversal_rows (odds_data : value) : list row :=
  flat_map rows_of_game (items odds_data).

End Host.


(** The hour:minute text of a minute of the day as a reader expects it,
    character by character: the tens and units of the hour, a colon, the
    tens and units of the minute. *)
Definition decimal_digit (n : Z) : ascii :=
  match n with
  | 0 => "0"
  | 1 => "1"
  | 2 => "2"
  | 3 => "3"
  | 4 => "4"
  | 5 => "5"
  | 6 => "6"
  | 7 => "7"
  | 8 => "8"
  | _ => "9"
  end%char%Z.

Definition clock_text (minute_of_day : Z) : string :=
  let h := (minute_of_day / 60)%Z in
  let m := (minute_of_day mod 60)%Z in
  String (decimal_digit (h / 10))
    (String (decimal_digit (h mod 10))
       (String ":"
          (String (decimal_digit (m / 10))
             (String (decimal_digit (m mod 10)) EmptyString)))).

(** A well-formed hour:minute text: two digits, a colon, two digits, with
    the hour below 24 and the minute below 60. *)
Definition digit_value (c : ascii) : option Z :=
  let n := Z.of_nat (nat_of_ascii c) in
  if ((48 <=? n) && (n <=? 57))%Z then Some (n - 48)%Z else None.

Definition well_formed_HM (s : string) : bool :=
  match s with
  | String a (String b (String c (String d (String e EmptyString)))) =>
      match digit_value a, digit_value b, digit_value d, digit_value e with
      | Some h1, Some h0, Some m1, Some m0 =>
          Ascii.eqb c ":" && (h1 * 10 + h0 <? 24)%Z && (m1 * 10 + m0 <? 60)%Z
      | _, _, _, _ => false
      end
  | _ => false
  end.

End Traversal.

(* ================================================================== *)
(** ** The two requests of the fetcher *)
(* ================================================================== *)

Module Endpoints.

Import Datetime Strftime Fetcher.

Local Open Scope string_scope.

(** The URL and the headers each operation passes to [requests.get]. *)
Definition fixtures_url (now : datetime) : string :=
  BASE_URL ++ "/fixtures?date=" ++ strftime_Ymd now ++ "&timezone=UTC".

Definition odds_url (now : datetime) : string :=
  BASE_URL ++ "/odds?date=" ++ strftime_Ymd now ++ "&timezone=UTC".

Definition auth_headers (API_KEY : string) : list (string * string) :=
  [("x-apisports-key", API_KEY)].

(** What both operations do with the outcome of their request. *)
Definition degrade (outcome : result response) : result value :=
  response <- outcome ;;
  if (status_code response =? 200)%Z
  then data <- json response ;; get data "response" (PList [])
  else Ok (PList []).

(** A transport that obtains no response. *)
Definition unreachable (url : string) (headers : list (string * string))
  : result response :=
  Raise RequestException.

(** A transport that answers every request with the same response. *)
Definition answering (r : response) (url : string) (headers : list (string * string))
  : result response :=
  Ok r.

End Endpoints.

(* ================================================================== *)
(** ** Records of the shape the normaliser accepts *)
(* ================================================================== *)

Module Shape.

Import Datetime Normalizer.

Local Open Scope string_scope.
Local Open Scope list_scope.

Definition is_dict (o : value) : bool :=
  match o with
  | PDict _ => true
  | _ => false
  end.

Definition entries_of (o : value) : list (string * value) :=
  match o with
  | PDict entries => entries
  | _ => []
  end.

(** A key that is absent, or present with a value of the given shape. *)
Definition absent_or (shape : value -> bool) (o : value) (key : string) : bool :=
  match lookup key (entries_of o) with
  | None => true
  | Some v => shape v
  end.

Definition present (o : value) (key : string) : bool :=
  match lookup key (entries_of o) with
  | None => false
  | Some _ => true
  end.

Definition list_of (shape : value -> bool) (o : value) : bool :=
  match o with
  | PList items => forallb shape items
  | _ => false
  end.

(** A priced selection: a dictionary; "value" and "odd" may be absent. *)
Definition selection_shape (val : value) : bool := is_dict val.

(** A market: a dictionary; "name" may be absent, "values" may be absent. *)
Definition bet_shape (bet : value) : bool :=
  is_dict bet && absent_or (list_of selection_shape) bet "values".

(** A bookmaker block: a dictionary that holds "name"; "bets" may be
    absent. *)
Definition bookmaker_shape (bookmaker : value) : bool :=
  is_dict bookmaker && present bookmaker "name"
  && absent_or (list_of bet_shape) bookmaker "bets".

Definition teams_shape (teams : value) : bool :=
  is_dict teams && absent_or is_dict teams "home" && absent_or is_dict teams "away".

Section Host.

Variable tz : host.

Definition readable_timestamp (timestamp : value) : bool :=
  match fromtimestamp tz timestamp with
  | Ok _ => true
  | Raise _ => false
  end.

(** A fixture: a dictionary whose "timestamp", 0 when absent, the host can
    turn into a local time. *)
Definition fixture_shape (fixture : value) : bool :=
  is_dict fixture
  && readable_timestamp
       (match lookup "timestamp" (entries_of fixture) with
        | Some timestamp => timestamp
        | None => PInt 0
        end).

(** A raw odds record: a dictionary that holds a "fixture"; "league",
    "teams", the names in them and "bookmakers" may be absent. *)
Definition game_shape (game : value) : bool :=
  is_dict game
  && present game "fixture" && absent_or fixture_shape game "fixture"
  && absent_or is_dict game "league"
  && absent_or teams_shape game "teams"
  && absent_or (list_of bookmaker_shape) game "bookmakers".

Definition odds_shape (odds_data : value) : bool :=
  list_of game_shape odds_data.

End Host.

End Shape.

(* ================================================================== *)
(** ** Sample hosts and payloads *)
(* ================================================================== *)

Module Examples.

Import Datetime Normalizer.

Local Open Scope string_scope.
Local Open Scope list_scope.

(** A host whose local time is UTC. The examples hold no [float]
    timestamp; this host accepts none. *)
Definition utc_host : host :=
  mk_host (fun _ => 0%Z) (fun _ => Raise OverflowError).

(** Hosts on other local times: five hours behind UTC, five and a half
    hours ahead of it, and one that moved from UTC to one hour ahead at the
    POSIX second 1000000000. Like [utc_host] they are used with [int]
    timestamps only. *)
Definition bogota_host : host :=
  mk_host (fun _ => (-18000)%Z) (fun _ => Raise OverflowError).

Definition kolkata_host : host :=
  mk_host (fun _ => 19800%Z) (fun _ => Raise OverflowError).


(** The end-to-end scenario of section 8: one fixture, one bookmaker, the
    market "Match Winner" with three priced selections. *)
Definition priced (selection : string) (odd : float) : value :=
  PDict [("value", PStr selection); ("odd", PFloat odd)].

Definition test_league_payload (timestamp : Z) : value :=
  PList
    [PDict
       [("fixture", PDict [("id", PInt 1); ("timestamp", PInt timestamp)]);
        ("league", PDict [("name", PStr "Test League")]);
        ("teams", PDict [("home", PDict [("name", PStr "A")]);
                         ("away", PDict [("name", PStr "B")])]);
        ("bookmakers",
         PList
           [PDict
              [("name", PStr "BookX");
               ("bets",
                PList
                  [PDict
                     [("name", PStr "Match Winner");
                      ("values",
                       PList [priced "Home" 1.5; priced "Draw" 3.2;
                              priced "Away" 2.1])]])]])]].

Definition test_league_row (selection : string) (odd : float) : row :=
  mk_row (PStr "Test League") (PStr "A") (PStr "B") "15:30" (PStr "BookX")
         (PStr "Match Winner") (PStr selection) (PFloat odd).

(** One fixture, one bookmaker, one market of any name with the single
    selection "Draw". *)
Definition draw_under_market (timestamp : Z) (market_name odd : value) : value :=
  PList
    [PDict
       [("fixture", PDict [("timestamp", PInt timestamp)]);
        ("bookmakers",
         PList
           [PDict
              [("name", PStr "BookX");
               ("bets",
                PList
                  [PDict
                     [("name", market_name);
                      ("values",
                       PList [PDict [("value", PStr "Draw"); ("odd", odd)]])]])]])]].

(** An input with a "Draw" under "Over/Under", next to a selection that
    does not pass. *)
Definition over_under_payload : value :=
  PList
    [PDict
       [("fixture", PDict [("timestamp", PInt 55800)]);
        ("bookmakers",
         PList
           [PDict
              [("name", PStr "BookX");
               ("bets",
                PList
                  [PDict
                     [("name", PStr "Over/Under");
                      ("values",
                       PList [PDict [("value", PStr "Over 2.5"); ("odd", PStr "1.90")];
                              PDict [("value", PStr "Draw"); ("odd", PStr "3.10")]])]])]])]].

(** A fixture without "timestamp". *)
Definition undated_game : value :=
  PDict
    [("fixture", PDict [("id", PInt 7)]);
     ("bookmakers",
      PList
        [PDict
           [("name", PStr "BookX");
            ("bets",
             PList
               [PDict
                  [("name", PStr "Draw No Bet");
                   ("values",
                    PList [PDict [("value", PStr "Home"); ("odd", PStr "1.40")]])]])]])].

(** A fixture whose only bookmaker block carries no "name". *)
Definition nameless_bookmaker_payload : value :=
  PList
    [PDict
       [("fixture", PDict [("timestamp", PInt 0)]);
        ("bookmakers",
         PList
           [PDict
              [("bets",
                PList
                  [PDict
                     [("name", PStr "Match Winner");
                      ("values",
                       PList [PDict [("value", PStr "Home");
                                     ("odd", PStr "1.50")]])]])]])]].

End Examples.

(* ================================================================== *)
(** ** The inputs on which the normaliser returns *)
(* ================================================================== *)

Module Domain.

Import Datetime Normalizer Traversal Shape.

Local Open Scope string_scope.
Local Open Scope list_scope.

Definition returned {A : Type} (m : result A) : bool :=
  match m with
  | Ok _ => true
  | Raise _ => false
  end.

(** A value that a [for] loop can walk and whose items all pass [shape]. *)
Definition each (shape : value -> bool) (o : value) : bool :=
  match iter o with
  | Ok l => forallb shape l
  | Raise _ => false
  end.

(** A priced selection: a dictionary; if it passes the filter, its
    bookmaker block must hold "name". *)
Definition selection_accepted (named : bool) (market_name val : value) : bool :=
  is_dict val
  && (negb (wanted market_name (field val "value" (PStr "N/A"))) || named).

Definition bet_accepted (named : bool) (bet : value) : bool :=
  is_dict bet
  && each (selection_accepted named (field bet "name" (PStr "Desconocido")))
          (field bet "values" (PList [])).

Definition bookmaker_accepted (bookmaker : value) : bool :=
  is_dict bookmaker
  && each (bet_accepted (present bookmaker "name"))
          (field bookmaker "bets" (PList [])).

(** A loop body that only appends to the list it is given: run on [acc],
    it does what it does on the empty list, with [acc] in front. *)
Definition appending {A R : Type} (body : A -> list R -> result (list R)) : Prop :=
  forall x acc, body x acc = bind (body x []) (fun r => Ok (acc ++ r)).

(** A selection that passes the filter under a bookmaker block without
    "name": what is behind a [KeyError]. *)
Definition unnamed_pass (bookmaker market_name val : value) : Prop :=
  wanted market_name (field val "value" (PStr "N/A")) = true
  /\ present bookmaker "name" = false.

Section Host.

Variable tz : host.

Definition game_accepted (game : value) : bool :=
  is_dict game
  && is_dict (field game "league" (PDict []))
  && is_dict (field game "teams" (PDict []))
  && is_dict (field (field game "teams" (PDict [])) "home" (PDict []))
  && is_dict (field (field game "teams" (PDict [])) "away" (PDict []))
  && is_dict (field game "fixture" PNone)
  && readable_timestamp tz (field (field game "fixture" PNone) "timestamp" (PInt 0))
  && each bookmaker_accepted (field game "bookmakers" (PList [])).

Definition accepted (odds_data : value) : bool :=
  each game_accepted odds_data.

(** The minute of the local day on which a POSIX second falls. *)
Definition local_minute_of_day (secs : Z) : Z :=
  ((secs + utcoffset tz secs) mod 86400 / 60)%Z.

End Host.

End Domain.

(* ================================================================== *)
(** ** Facts about the Python operations *)
(* ================================================================== *)

Module PyFacts.

Lemma bind_ok {A B : Type} (m : result A) (k : A -> result B) (b : B) :
  bind m k = Ok b -> exists a, m = Ok a /\ k a = Ok b.
Proof.
  destruct m as [a | e]; cbn; [ | discriminate].
  intros H. now exists a.
Qed.

Lemma bind_raise {A B : Type} (m : result A) (k : A -> result B) (e : exn) :
  m = Raise e -> bind m k = Raise e.
Proof. now intros ->. Qed.

(** Only [AttributeError] comes out of [get]. *)
Lemma get_raise o key default e : get o key default = Raise e -> e = AttributeError.
Proof.
  destruct o; cbn; try congruence.
  destruct (lookup key entries); discriminate.
Qed.

Lemma get_ok o key default v :
  get o key default = Ok v ->
  exists entries,
    o = PDict entries
    /\ v = match lookup key entries with Some x => x | None => default end.
Proof.
  destruct o; cbn; try discriminate.
  intros H. exists entries. split; [reflexivity | ].
  destruct (lookup key entries); congruence.
Qed.

Lemma get_absent entries key default :
  lookup key entries = None -> get (PDict entries) key default = Ok default.
Proof. cbn. now intros ->. Qed.

Lemma getitem_ok o key v :
  getitem o key = Ok v -> forall default, get o key default = Ok v.
Proof.
  destruct o; cbn; try discriminate.
  destruct (lookup key entries); [trivial | discriminate].
Qed.

Lemma for_each_app {A S : Type} (body : A -> S -> result S) xs ys s :
  for_each body (xs ++ ys) s
  = bind (for_each body xs s) (fun s' => for_each body ys s').
Proof.
  revert s. induction xs as [ | x xs IH]; intros s; cbn; [reflexivity | ].
  destruct (body x s); [apply IH | reflexivity].
Qed.

(** A loop returns only when its body returned at every item. *)
Lemma for_each_ok_each {A S : Type} (body : A -> S -> result S) xs :
  forall s s', for_each body xs s = Ok s' ->
  forall x, In x xs -> exists s1 s2, body x s1 = Ok s2.
Proof.
  induction xs as [ | y xs IH]; intros s s' H x Hin; [destruct Hin | ].
  cbn in H. destruct (body y s) as [s1 | e] eqn:E; [ | discriminate].
  destruct Hin as [-> | Hin]; [now exists s, s1 | ].
  exact (IH _ _ H x Hin).
Qed.

(** A body that raises whatever the state makes the whole loop raise. *)
Lemma for_each_raises {A S : Type} (body : A -> S -> result S) xs x :
  In x xs -> (forall s, raises (body x s)) ->
  forall s, raises (for_each body xs s).
Proof.
  intros Hin Hx s. destruct (for_each body xs s) as [s' | e] eqn:E.
  - destruct (for_each_ok_each body xs s s' E x Hin) as (s1 & s2 & K).
    destruct (Hx s1) as (e & K'). congruence.
  - now exists e.
Qed.

(** A loop whose body only appends to a list appends, item after item,
    what each item contributes. *)
Lemma for_each_appends {A R : Type} (body : A -> list R -> result (list R))
    (f : A -> list R) xs s s' :
  for_each body xs s = Ok s' ->
  (forall x t t', In x xs -> body x t = Ok t' -> t' = t ++ f x) ->
  s' = s ++ flat_map f xs.
Proof.
  revert s. induction xs as [ | x xs IH]; intros s H Hbody; cbn in *.
  - injection H as <-. now rewrite app_nil_r.
  - destruct (body x s) as [s1 | e] eqn:E; [ | discriminate].
    rewrite (Hbody x s s1 (or_introl eq_refl) E) in H.
    rewrite (IH _ H (fun y t t' Hy => Hbody y t t' (or_intror Hy))).
    now rewrite app_assoc.
Qed.

End PyFacts.

(* ================================================================== *)
(** ** The normaliser returns on records of the accepted shape *)
(* ================================================================== *)

Module ShapeFacts.

Import Datetime Strftime Normalizer Shape PyFacts.

Local Open Scope string_scope.
Local Open Scope list_scope.

Lemma for_each_total {A S : Type} (body : A -> S -> result S) xs :
  (forall x, In x xs -> forall s, exists s', body x s = Ok s') ->
  forall s, exists s', for_each body xs s = Ok s'.
Proof.
  induction xs as [ | x xs IH]; intros Hbody s; cbn.
  - now exists s.
  - destruct (Hbody x (or_introl eq_refl) s) as (s1 & ->).
    apply IH. intros y Hy. apply Hbody. now right.
Qed.

Lemma is_dict_entries o : is_dict o = true -> o = PDict (entries_of o).
Proof. destruct o; cbn; congruence. Qed.

(** On a dictionary, [get] returns; the value is the default or has the
    shape the key promises. *)
Lemma get_absent_or shape o key default :
  is_dict o = true -> absent_or shape o key = true ->
  exists v, get o key default = Ok v /\ (v = default \/ shape v = true).
Proof.
  intros D. destruct o; try discriminate D. unfold absent_or.
  cbn [get entries_of].
  destruct (lookup key entries) as [v | ]; intros H.
  - exists v. now split; [ | right].
  - exists default. now split; [ | left].
Qed.

Lemma get_dict o key default :
  is_dict o = true -> exists v, get o key default = Ok v.
Proof.
  intros D. destruct o; try discriminate D. cbn [get].
  destruct (lookup key entries) as [v | ]; eauto.
Qed.

Lemma iter_list_of shape o :
  o = PList [] \/ list_of shape o = true ->
  exists l, iter o = Ok l /\ forall x, In x l -> shape x = true.
Proof.
  intros [-> | H].
  - exists []. split; [reflexivity | intros x []].
  - destruct o as [ | | | | | l | ]; try discriminate H. cbn in H. exists l.
    split; [reflexivity | ]. now apply forallb_forall.
Qed.

Section Host.

Variable tz : host.

Lemma analyze_value_total league home_team away_team match_time bookmaker
    market_name val filtered_data :
  is_dict bookmaker = true -> present bookmaker "name" = true ->
  selection_shape val = true ->
  exists out,
    analyze_value league home_team away_team match_time bookmaker market_name
                  val filtered_data = Ok out.
Proof.
  intros Db Pn Dv. unfold analyze_value.
  destruct (get_dict val "value" (PStr "N/A") Dv) as (selection & ->).
  destruct (get_dict val "odd" (PStr "N/A") Dv) as (odd & ->).
  cbn [bind]. destruct (wanted market_name selection); [ | eauto].
  rewrite (is_dict_entries bookmaker Db). unfold present in Pn. cbn [getitem].
  destruct (lookup "name" (entries_of bookmaker)); [ | discriminate].
  cbn [bind]. eauto.
Qed.

Lemma analyze_bet_total league home_team away_team match_time bookmaker
    bet filtered_data :
  is_dict bookmaker = true -> present bookmaker "name" = true ->
  bet_shape bet = true ->
  exists out,
    analyze_bet league home_team away_team match_time bookmaker bet
                filtered_data = Ok out.
Proof.
  intros Db Pn Sb. unfold bet_shape in Sb.
  apply andb_prop in Sb. destruct Sb as [D V].
  unfold analyze_bet.
  destruct (get_dict bet "name" (PStr "Desconocido") D) as (market_name & ->).
  destruct (get_absent_or _ bet "values" (PList []) D V) as (values_ & -> & Hv).
  cbn [bind].
  destruct (iter_list_of _ _ Hv) as (values & -> & Hs).
  cbn [bind]. apply for_each_total. intros val Hin s.
  apply analyze_value_total; auto.
Qed.

Lemma analyze_bookmaker_total league home_team away_team match_time
    bookmaker filtered_data :
  bookmaker_shape bookmaker = true ->
  exists out,
    analyze_bookmaker league home_team away_team match_time bookmaker
                      filtered_data = Ok out.
Proof.
  intros Sb. unfold bookmaker_shape in Sb.
  apply andb_prop in Sb. destruct Sb as [Sb B].
  apply andb_prop in Sb. destruct Sb as [D Pn].
  unfold analyze_bookmaker.
  destruct (get_absent_or _ bookmaker "bets" (PList []) D B) as (bets_ & -> & Hb).
  cbn [bind].
  destruct (iter_list_of _ _ Hb) as (bets & -> & Hs).
  cbn [bind]. apply for_each_total. intros bet Hin s.
  apply analyze_bet_total; auto.
Qed.

Lemma analyze_game_total game filtered_data :
  game_shape tz game = true ->
  exists out, analyze_game tz game filtered_data = Ok out.
Proof.
  intros Sg. unfold game_shape in Sg.
  apply andb_prop in Sg. destruct Sg as [Sg Sbk].
  apply andb_prop in Sg. destruct Sg as [Sg Stm].
  apply andb_prop in Sg. destruct Sg as [Sg Slg].
  apply andb_prop in Sg. destruct Sg as [Sg Sfx].
  apply andb_prop in Sg. destruct Sg as [D Pfx].
  unfold analyze_game.
  (* fixture *)
  assert (F : exists fixture,
             get game "fixture" PNone = Ok fixture
             /\ fixture_shape tz fixture = true).
  { destruct game as [ | | | | | | entries]; try discriminate D.
    unfold present in Pfx. unfold absent_or in Sfx.
    cbn [entries_of get] in *.
    destruct (lookup "fixture" entries) as [fixture | ]; [ | discriminate Pfx].
    now exists fixture. }
  destruct F as (fixture & -> & Ffx). unfold fixture_shape in Ffx.
  apply andb_prop in Ffx. destruct Ffx as [Dfx Rts]. cbn [bind].
  (* league *)
  destruct (get_absent_or _ game "league" (PDict []) D Slg) as (league_ & -> & Hlg).
  assert (Dlg : is_dict league_ = true) by (destruct Hlg as [-> | Hlg]; auto).
  cbn [bind].
  destruct (get_dict league_ "name" (PStr "Desconocida") Dlg) as (league & ->).
  cbn [bind].
  (* teams *)
  destruct (get_absent_or _ game "teams" (PDict []) D Stm) as (teams & -> & Htm).
  assert (Ttm : teams_shape teams = true) by (destruct Htm as [-> | Htm]; auto).
  unfold teams_shape in Ttm.
  apply andb_prop in Ttm. destruct Ttm as [Ttm Taw].
  apply andb_prop in Ttm. destruct Ttm as [Dtm Thm].
  cbn [bind].
  destruct (get_absent_or _ teams "home" (PDict []) Dtm Thm) as (home & -> & Hhm).
  assert (Dhm : is_dict home = true) by (destruct Hhm as [-> | Hhm]; auto).
  cbn [bind].
  destruct (get_dict home "name" (PStr "Desconocido") Dhm) as (home_team & ->).
  cbn [bind].
  destruct (get_absent_or _ teams "away" (PDict []) Dtm Taw) as (away & -> & Haw).
  assert (Daw : is_dict away = true) by (destruct Haw as [-> | Haw]; auto).
  cbn [bind].
  destruct (get_dict away "name" (PStr "Desconocido") Daw) as (away_team & ->).
  cbn [bind].
  (* kickoff *)
  assert (K : exists kickoff,
             bind (get fixture "timestamp" (PInt 0))
                  (fun timestamp => fromtimestamp tz timestamp)
             = Ok kickoff).
  { destruct fixture as [ | | | | | | fx]; try discriminate Dfx.
    unfold readable_timestamp in Rts. cbn [get entries_of] in *.
    destruct (lookup "timestamp" fx); cbn [bind];
      destruct (fromtimestamp tz _) as [kickoff | ]; try discriminate; eauto. }
  destruct K as (kickoff & K).
  destruct (get fixture "timestamp" (PInt 0)) as [timestamp | ];
    cbn [bind] in K |- *; [ | discriminate K].
  rewrite K. cbn [bind].
  (* bookmakers *)
  destruct (get_absent_or _ game "bookmakers" (PList []) D Sbk)
    as (bookmakers_ & -> & Hbk).
  cbn [bind].
  destruct (iter_list_of _ _ Hbk) as (bookmakers & -> & Hs).
  cbn [bind]. apply for_each_total. intros bookmaker Hin s.
  apply analyze_bookmaker_total; auto.
Qed.

(** On an input of the accepted shape, [analyze_odds] returns a table. *)
Lemma analyze_odds_total odds_data :
  odds_shape tz odds_data = true ->
  exists rows, analyze_odds tz odds_data = Ok rows.
Proof.
  intros S. unfold analyze_odds.
  destruct (iter_list_of _ _ (or_intror S)) as (games & -> & Hs).
  cbn [bind]. apply for_each_total. intros game Hin s.
  apply analyze_game_total; auto.
Qed.

End Host.

End ShapeFacts.

(* ================================================================== *)
(** ** Facts about the quota reset estimator *)
(* ================================================================== *)

Module QuotaResetFacts.

Import Datetime QuotaReset.

Ltac bool_to_prop :=
  repeat match goal with
  | H : _ && _ = true |- _ => apply andb_prop in H; destruct H
  | H : (_ <=? _) = true |- _ => apply Z.leb_le in H
  | H : (_ <? _) = true |- _ => apply Z.ltb_lt in H
  | H : (_ =? _) = true |- _ => apply Z.eqb_eq in H
  end.

Lemma valid_date_bounds y m d :
  valid_date y m d = true ->
  1 <= y <= 9999 /\ 1 <= m <= 12 /\ 1 <= d <= days_in_month y m.
Proof.
  unfold valid_date, MINYEAR, MAXYEAR. intros H. bool_to_prop. lia.
Qed.

Lemma valid_time_bounds hh mm ss us :
  valid_time hh mm ss us = true ->
  0 <= hh <= 23 /\ 0 <= mm <= 59 /\ 0 <= ss <= 59 /\ 0 <= us <= 999999.
Proof.
  unfold valid_time. intros H. bool_to_prop. lia.
Qed.

Lemma valid_bounds t :
  valid t = true ->
  (1 <= year t <= 9999 /\ 1 <= month t <= 12
   /\ 1 <= day t <= days_in_month (year t) (month t))
  /\ 0 <= hour t <= 23 /\ 0 <= minute t <= 59 /\ 0 <= second t <= 59
  /\ 0 <= microsecond t <= 999999.
Proof.
  unfold valid. intros H. apply andb_prop in H. destruct H as [Hd Ht].
  split; [apply valid_date_bounds | apply valid_time_bounds]; assumption.
Qed.

(** One year holds 365 days, or 366 when it is a leap year. *)
Lemma days_before_year_succ y :
  days_before_year (y + 1) = days_before_year y + 365 + (if is_leap y then 1 else 0).
Proof.
  unfold days_before_year, is_leap.
  replace (y + 1 - 1) with y by lia.
  destruct (y mod 4 =? 0) eqn:E4; destruct (y mod 100 =? 0) eqn:E100;
    destruct (y mod 400 =? 0) eqn:E400; cbn [andb orb negb];
    rewrite ?Z.eqb_eq, ?Z.eqb_neq in *;
    Z.div_mod_to_equations; lia.
Qed.

Lemma days_before_year_mono y y' :
  y <= y' -> days_before_year y <= days_before_year y'.
Proof.
  unfold days_before_year. intros H. Z.div_mod_to_equations. lia.
Qed.

Lemma month_cases m :
  1 <= m <= 12 ->
  m = 1 \/ m = 2 \/ m = 3 \/ m = 4 \/ m = 5 \/ m = 6 \/ m = 7 \/ m = 8
  \/ m = 9 \/ m = 10 \/ m = 11 \/ m = 12.
Proof. lia. Qed.

Ltac calendar_tables :=
  cbn [DAYS_IN_MONTH DAYS_BEFORE_MONTH andb Z.eqb Z.ltb Z.compare
       Pos.eqb Pos.compare Pos.compare_cont] in *.

Ltac split_month m H :=
  let C := fresh "C" in
  pose proof (month_cases m H) as C;
  repeat (destruct C as [C | C]; [subst m | ]); [.. | subst m].

(** Within a year, the day of the year runs from 1 to 365 or 366. *)
Lemma day_of_year_bounds y m d :
  1 <= m <= 12 -> 1 <= d <= days_in_month y m ->
  1 <= days_before_month y m + d <= 365 + (if is_leap y then 1 else 0).
Proof.
  intros Hm Hd. unfold days_in_month, days_before_month in *.
  split_month m Hm; destruct (is_leap y); calendar_tables; lia.
Qed.

Lemma day_of_year_mono y m d m' d' :
  1 <= m <= 12 -> 1 <= m' <= 12 ->
  1 <= d <= days_in_month y m -> 1 <= d' <= days_in_month y m' ->
  m < m' ->
  days_before_month y m + d < days_before_month y m' + d'.
Proof.
  intros Hm Hm' Hd Hd' Hlt. unfold days_in_month, days_before_month in *.
  split_month m Hm; split_month m' Hm'; try lia;
    destruct (is_leap y); calendar_tables; lia.
Qed.


(** Dates in calendar order have increasing ordinals. *)
Lemma ymd2ord_lt y m d y' m' d' :
  valid_date y m d = true -> valid_date y' m' d' = true ->
  y < y' \/ (y = y' /\ (m < m' \/ (m = m' /\ d < d'))) ->
  ymd2ord y m d < ymd2ord y' m' d'.
Proof.
  intros V V' H.
  apply valid_date_bounds in V. apply valid_date_bounds in V'.
  destruct V as (Hy & Hm & Hd). destruct V' as (Hy' & Hm' & Hd').
  unfold ymd2ord.
  destruct H as [Hlt | [-> [Hlt | [-> Hlt]]]].
  - pose proof (day_of_year_bounds y m d Hm Hd) as B.
    pose proof (day_of_year_bounds y' m' d' Hm' Hd') as B'.
    pose proof (days_before_year_succ y) as S.
    pose proof (days_before_year_mono (y + 1) y' ltac:(lia)) as M.
    lia.
  - pose proof (day_of_year_mono y' m d m' d' Hm Hm' Hd Hd' Hlt). lia.
  - lia.
Qed.

Lemma lex_ltb_cons x a y b :
  lex_ltb (x :: a) (y :: b) = true <-> x < y \/ (x = y /\ lex_ltb a b = true).
Proof.
  cbn [lex_ltb]. now rewrite orb_true_iff, andb_true_iff, Z.ltb_lt, Z.eqb_eq.
Qed.

(** Python's [<] on naive datetimes agrees with the microsecond axis. *)
Lemma ltb_to_us a b :
  valid a = true -> valid b = true ->
  (ltb a b = true <-> to_us a < to_us b).
Proof.
  intros Va Vb.
  pose proof (valid_bounds a Va) as (_ & Ba).
  pose proof (valid_bounds b Vb) as (_ & Bb).
  unfold valid in Va, Vb.
  apply andb_prop in Va. destruct Va as [Da _].
  apply andb_prop in Vb. destruct Vb as [Db _].
  pose proof (ymd2ord_lt _ _ _ _ _ _ Da Db) as Lab.
  pose proof (ymd2ord_lt _ _ _ _ _ _ Db Da) as Lba.
  assert (Leq : year a = year b -> month a = month b -> day a = day b ->
                toordinal a = toordinal b)
    by (unfold toordinal; congruence).
  unfold ltb, fields. rewrite !lex_ltb_cons. cbn [lex_ltb].
  unfold to_us, second_of_day, US_PER_SECOND. fold (toordinal a) in *.
  fold (toordinal b) in *.
  split; intros H.
  - assert (toordinal a < toordinal b
            \/ (toordinal a = toordinal b
                /\ (hour a < hour b
                    \/ (hour a = hour b
                        /\ (minute a < minute b
                            \/ (minute a = minute b
                                /\ (second a < second b
                                    \/ (second a = second b
                                        /\ microsecond a < microsecond b))))))))
      as K.
    { destruct H as [H | [Ey [H | [Em [H | [Ed H]]]]]].
      - left. apply Lab. lia.
      - left. apply Lab. lia.
      - left. apply Lab. lia.
      - right. split; [apply Leq; assumption | ].
        destruct H as [H | [Eh [H | [Emi [H | [Es [H | [_ H]]]]]]]];
          try discriminate H; lia. }
    lia.
  - destruct (Z.lt_trichotomy (year a) (year b)) as [T | [T | T]];
      [lia | | assert (toordinal b < toordinal a) by (apply Lba; lia); lia].
    destruct (Z.lt_trichotomy (month a) (month b)) as [T1 | [T1 | T1]];
      [lia | | assert (toordinal b < toordinal a) by (apply Lba; lia); lia].
    destruct (Z.lt_trichotomy (day a) (day b)) as [T2 | [T2 | T2]];
      [lia | | assert (toordinal b < toordinal a) by (apply Lba; lia); lia].
    specialize (Leq T T1 T2).
    right. split; [assumption | ]. right. split; [assumption | ].
    right. split; [assumption | ]. lia.
Qed.

(** Normalising a [timedelta] keeps the duration it denotes. *)
Lemma td_total_us_new days seconds microseconds :
  td_total_us (timedelta_new days seconds microseconds)
  = (days * 86400 + seconds) * 1000000 + microseconds.
Proof.
  unfold td_total_us, timedelta_new, US_PER_DAY, US_PER_SECOND.
  cbn [td_days td_seconds td_microseconds].
  Z.div_mod_to_equations. lia.
Qed.

Lemma td_total_us_sub a b : td_total_us (sub a b) = to_us a - to_us b.
Proof.
  unfold sub. rewrite td_total_us_new. unfold to_us, US_PER_SECOND. lia.
Qed.

Lemma td_total_us_hours n : td_total_us (hours n) = n * 3600 * 1000000.
Proof. unfold hours. rewrite td_total_us_new. lia. Qed.

(** The candidate built at today's date is never before [now], so the
    [timedelta(hours=8)] adjustment is never applied. *)
Lemma candidate_not_before_now now reset_time :
  new (year now) (month now) (day now) ((hour now / 8 + 1) * 8) 0 0 = Ok reset_time ->
  ltb reset_time now = false.
Proof.
  unfold new. destruct (valid_date _ _ _ && valid_time _ _ _ _); [ | discriminate].
  intros [= <-].
  destruct (ltb _ now) eqn:E; [exfalso | reflexivity].
  unfold ltb, fields in E. rewrite !lex_ltb_cons in E.
  cbn [year month day hour] in E.
  Z.div_mod_to_equations. lia.
Qed.

Lemma get_api_reset_time_new now :
  get_api_reset_time now
  = new (year now) (month now) (day now) ((hour now / 8 + 1) * 8) 0 0.
Proof.
  unfold get_api_reset_time, bind.
  destruct (new _ _ _ _ _ _) as [r | e] eqn:E; [ | reflexivity].
  now rewrite (candidate_not_before_now _ _ E).
Qed.

Lemma valid_split t :
  valid t = true ->
  valid_date (year t) (month t) (day t) = true
  /\ 0 <= hour t <= 23 /\ 0 <= minute t <= 59 /\ 0 <= second t <= 59
  /\ 0 <= microsecond t <= 999999.
Proof.
  intros V. pose proof (valid_bounds t V) as (_ & B).
  unfold valid in V. apply andb_prop in V. tauto.
Qed.

(** What a successful estimate looks like. *)
Lemma get_api_reset_time_ok now reset :
  valid now = true -> get_api_reset_time now = Ok reset ->
  reset = mk_datetime (year now) (month now) (day now) ((hour now / 8 + 1) * 8) 0 0 0
  /\ hour now < 16 /\ valid reset = true.
Proof.
  intros V. rewrite get_api_reset_time_new. unfold new.
  destruct (valid_date _ _ _ && valid_time _ _ _ _) eqn:E; [ | discriminate].
  intros [= <-]. split; [reflexivity | ].
  apply andb_prop in E. destruct E as [Ed Et].
  pose proof (valid_time_bounds _ _ _ _ Et) as Bt.
  split; [Z.div_mod_to_equations; lia | ].
  unfold valid. cbn [year month day hour minute second microsecond].
  now rewrite Ed, Et.
Qed.


Example reset_at_0941 :
  get_api_reset_time (mk_datetime 2024 3 10 9 41 7 250000)
  = Ok (mk_datetime 2024 3 10 16 0 0 0).
Proof. reflexivity. Qed.

(** The roll-over into the next day that [timedelta(hours=8)] would give. *)
Example add_8_hours_rolls_over :
  add (mk_datetime 2024 12 31 16 0 0 0) (hours 8)
  = Ok (mk_datetime 2025 1 1 0 0 0 0).
Proof. reflexivity. Qed.

(** Between 16:00 and midnight the candidate hour is 24, which the
    [datetime] constructor refuses. *)
Lemma get_api_reset_time_from_16h now :
  valid now = true -> 16 <= hour now -> get_api_reset_time now = Raise ValueError.
Proof.
  intros V H. pose proof (valid_split now V) as (Vd & Bh & _).
  rewrite get_api_reset_time_new. unfold new.
  replace (valid_time _ 0 0 0) with false; [now rewrite andb_false_r | ].
  symmetry. unfold valid_time. apply andb_false_iff. left.
  apply andb_false_iff. left. apply andb_false_iff. left.
  apply andb_false_iff. left. apply andb_false_iff. left.
  apply andb_false_iff. left. apply andb_false_iff. right.
  apply Z.leb_gt. Z.div_mod_to_equations. lia.
Qed.

(** Before 16:00 the estimate is the next multiple of 8 hours on the same
    day; its distance from [now] on the microsecond axis. *)
Lemma reset_time_offset now :
  valid now = true -> hour now < 16 ->
  let reset := mk_datetime (year now) (month now) (day now)
                           ((hour now / 8 + 1) * 8) 0 0 0 in
  get_api_reset_time now = Ok reset
  /\ valid reset = true
  /\ to_us reset - to_us now
     = (((hour now / 8 + 1) * 8 - hour now) * 3600
        - minute now * 60 - second now) * 1000000 - microsecond now.
Proof.
  intros V H reset. pose proof (valid_split now V) as (Vd & Bh & _).
  assert (Hr : (hour now / 8 + 1) * 8 = 8 \/ (hour now / 8 + 1) * 8 = 16)
    by (Z.div_mod_to_equations; lia).
  assert (E : get_api_reset_time now = Ok reset).
  { assert (Vt : valid_time ((hour now / 8 + 1) * 8) 0 0 0 = true)
      by (destruct Hr as [R | R]; rewrite R; reflexivity).
    rewrite get_api_reset_time_new. unfold new. now rewrite Vd, Vt. }
  split; [exact E | ]. split; [apply (get_api_reset_time_ok now reset V E) | ].
  unfold to_us, toordinal, second_of_day, US_PER_SECOND, reset.
  cbn [year month day hour minute second microsecond]. lia.
Qed.

(** C1 (amended). For every current UTC instant whose hour is below 16,
    [get_api_reset_time] returns a timestamp that is strictly later than the
    instant, lies on the same calendar day at 08:00:00 or 16:00:00 exactly,
    and is at most 8 hours away. *)
Theorem reset_time_before_16h now :
  valid now = true -> hour now < 16 ->
  exists reset,
    get_api_reset_time now = Ok reset
    /\ ltb now reset = true
    /\ year reset = year now /\ month reset = month now /\ day reset = day now
    /\ (hour reset = 8 \/ hour reset = 16)
    /\ minute reset = 0 /\ second reset = 0 /\ microsecond reset = 0
    /\ 0 < td_total_us (sub reset now) <= td_total_us (hours 8).
Proof.
  intros V H. pose proof (valid_split now V) as (Vd & Bh & Bm & Bs & Bu).
  destruct (reset_time_offset now V H) as (E & Vr & U).
  set (reset := mk_datetime (year now) (month now) (day now)
                            ((hour now / 8 + 1) * 8) 0 0 0) in *.
  assert (Hr : (hour now / 8 + 1) * 8 = 8 \/ (hour now / 8 + 1) * 8 = 16)
    by (Z.div_mod_to_equations; lia).
  assert (D : td_total_us (sub reset now) = to_us reset - to_us now)
    by apply td_total_us_sub.
  exists reset. split; [exact E | ]. split.
  - apply ltb_to_us; [assumption | assumption | ].
    Z.div_mod_to_equations. lia.
  - repeat split; try reflexivity; try exact Hr;
      rewrite ?td_total_us_hours, D, U; Z.div_mod_to_equations; lia.
Qed.

Lemma reset_time_before_16h_witness :
  valid (mk_datetime 2024 3 10 9 41 7 250000) = true
  /\ hour (mk_datetime 2024 3 10 9 41 7 250000) < 16
  /\ exists reset,
       get_api_reset_time (mk_datetime 2024 3 10 9 41 7 250000) = Ok reset
       /\ ltb (mk_datetime 2024 3 10 9 41 7 250000) reset = true.
Proof.
  split; [reflexivity | split; [reflexivity | ]].
  destruct (reset_time_before_16h (mk_datetime 2024 3 10 9 41 7 250000))
    as (reset & E & L & _); [reflexivity | reflexivity | ].
  exists reset. split; assumption.
Defined.

(** C1, as stated, fails: at 00:00:00 exactly the estimate is a full 8 hours
    away, not less; and at 17:00 no timestamp is returned at all. *)
Lemma reset_time_counterexample :
  ~ (exists reset,
       get_api_reset_time (mk_datetime 2024 1 1 0 0 0 0) = Ok reset
       /\ td_total_us (sub reset (mk_datetime 2024 1 1 0 0 0 0))
          < td_total_us (hours 8))
  /\ ~ (exists reset,
          get_api_reset_time (mk_datetime 2024 1 1 17 0 0 0) = Ok reset).
Proof.
  split.
  - intros (reset & E & H). vm_compute in E. injection E as <-.
    vm_compute in H. discriminate H.
  - intros (reset & E). vm_compute in E. discriminate E.
Qed.

Lemma total_seconds_sign d :
  ((0 <= total_seconds d)%Q <-> 0 <= td_total_us d)
  /\ ((total_seconds d < 0)%Q <-> td_total_us d < 0)
  /\ ((0 < total_seconds d)%Q <-> 0 < td_total_us d).
Proof.
  unfold total_seconds, Qle, Qlt. cbn [Qnum Qden]. lia.
Qed.

(** C5 (amended). [get_remaining_time] returns the reset timestamp minus
    the second clock reading, in seconds, with no clamping: the value is
    negative exactly when that reading is later than the reset timestamp,
    and it is positive when both readings are the same instant. *)
Theorem remaining_time_unclamped clock1 clock2 reset :
  valid clock1 = true -> valid clock2 = true ->
  get_api_reset_time clock1 = Ok reset ->
  exists s,
    get_remaining_time clock1 clock2 = Ok s
    /\ s = total_seconds (sub reset clock2)
    /\ (s == inject_Z (to_us reset - to_us clock2) / 1000000)%Q
    /\ ((s < 0)%Q <-> ltb reset clock2 = true)
    /\ ((0 <= s)%Q <-> ltb reset clock2 = false)
    /\ (clock2 = clock1 -> (0 < s)%Q).
Proof.
  intros V1 V2 E.
  pose proof (get_api_reset_time_ok clock1 reset V1 E) as (_ & H16 & Vr).
  pose proof (total_seconds_sign (sub reset clock2)) as (Sle & Slt & Sgt).
  pose proof (ltb_to_us reset clock2 Vr V2) as L.
  pose proof (td_total_us_sub reset clock2) as D.
  exists (total_seconds (sub reset clock2)).
  split; [unfold get_remaining_time; now rewrite E | ].
  split; [reflexivity | ]. split.
  - unfold total_seconds. rewrite D. unfold Qeq, Qdiv, Qmult, Qinv, inject_Z.
    cbn [Qnum Qden]. cbn. lia.
  - split; [rewrite Slt, L; lia | ]. split.
    + rewrite Sle. destruct (ltb reset clock2); split; intros K;
        try reflexivity; try discriminate; lia.
    + intros ->. apply Sgt.
      destruct (reset_time_offset clock1 V1 H16) as (E' & _ & U).
      rewrite E in E'. injection E' as ->. rewrite D, U.
      pose proof (valid_split clock1 V1) as (_ & Bh & Bm & Bs & Bu).
      Z.div_mod_to_equations. lia.
Qed.

Lemma remaining_time_unclamped_witness :
  exists s,
    get_remaining_time (mk_datetime 2024 3 10 9 41 7 250000)
                       (mk_datetime 2024 3 10 9 41 7 250031) = Ok s
    /\ (0 <= s)%Q.
Proof.
  destruct (remaining_time_unclamped
              (mk_datetime 2024 3 10 9 41 7 250000)
              (mk_datetime 2024 3 10 9 41 7 250031)
              (mk_datetime 2024 3 10 16 0 0 0))
    as (s & E & _ & _ & _ & P & _); [reflexivity | reflexivity | reflexivity | ].
  exists s. split; [exact E | ]. apply P. reflexivity.
Defined.

(** C5, as stated, fails: a reset timestamp computed at 07:55 and read
    again at 08:03 gives minus 180 seconds. *)
Lemma remaining_time_negative :
  exists s,
    get_remaining_time (mk_datetime 2024 1 1 7 55 0 0)
                       (mk_datetime 2024 1 1 8 3 0 0) = Ok s
    /\ (s == - (180))%Q /\ (s < 0)%Q.
Proof.
  eexists. split; [reflexivity | ]. split; reflexivity.
Qed.

End QuotaResetFacts.

(* ================================================================== *)
(** ** Facts about the fetcher *)
(* ================================================================== *)

Module FetcherFacts.

Import Datetime Strftime Fetcher Endpoints.

Local Open Scope string_scope.

Section Transport.

Variable API_KEY : string.
Variable requests_get : string -> list (string * string) -> result response.

Lemma get_matches_request now :
  get_matches API_KEY requests_get now
  = degrade (requests_get (fixtures_url now) (auth_headers API_KEY)).
Proof. reflexivity. Qed.

Lemma get_odds_request now :
  get_odds API_KEY requests_get now
  = degrade (requests_get (odds_url now) (auth_headers API_KEY)).
Proof. reflexivity. Qed.

Lemma degrade_cases outcome :
  (forall e, outcome = Raise e -> degrade outcome = Raise e)
  /\ (forall r, outcome = Ok r -> status_code r <> 200 ->
        degrade outcome = Ok (PList []))
  /\ (forall r entries,
        outcome = Ok r -> status_code r = 200 ->
        json r = Ok (PDict entries) -> lookup "response" entries = None ->
        degrade outcome = Ok (PList []))
  /\ (forall r entries found,
        outcome = Ok r -> status_code r = 200 ->
        json r = Ok (PDict entries) -> lookup "response" entries = Some found ->
        degrade outcome = Ok found).
Proof.
  unfold degrade. repeat split.
  - now intros e ->.
  - intros r -> H. cbn [bind]. apply Z.eqb_neq in H. now rewrite H.
  - intros r entries -> H J L. cbn [bind]. rewrite H, J. cbn. now rewrite L.
  - intros r entries found -> H J L. cbn [bind]. rewrite H, J. cbn. now rewrite L.
Qed.

(** C4 (amended). For [get_matches] and for [get_odds]: a response whose
    status is not 200 gives the empty list; a response with status 200
    whose body is a JSON object without "response" gives the empty list;
    and when the transport raises instead of answering, the operation
    raises the same exception. *)
Theorem fetch_outcomes now :
  (forall r,
     requests_get (fixtures_url now) (auth_headers API_KEY) = Ok r ->
     status_code r <> 200 ->
     get_matches API_KEY requests_get now = Ok (PList []))
  /\ (forall r entries,
        requests_get (fixtures_url now) (auth_headers API_KEY) = Ok r ->
        status_code r = 200 -> json r = Ok (PDict entries) ->
        lookup "response" entries = None ->
        get_matches API_KEY requests_get now = Ok (PList []))
  /\ (forall e,
        requests_get (fixtures_url now) (auth_headers API_KEY) = Raise e ->
        get_matches API_KEY requests_get now = Raise e)
  /\ (forall r,
        requests_get (odds_url now) (auth_headers API_KEY) = Ok r ->
        status_code r <> 200 ->
        get_odds API_KEY requests_get now = Ok (PList []))
  /\ (forall r entries,
        requests_get (odds_url now) (auth_headers API_KEY) = Ok r ->
        status_code r = 200 -> json r = Ok (PDict entries) ->
        lookup "response" entries = None ->
        get_odds API_KEY requests_get now = Ok (PList []))
  /\ (forall e,
        requests_get (odds_url now) (auth_headers API_KEY) = Raise e ->
        get_odds API_KEY requests_get now = Raise e).
Proof.
  rewrite get_matches_request, get_odds_request.
  destruct (degrade_cases (requests_get (fixtures_url now) (auth_headers API_KEY)))
    as (M1 & M2 & M3 & _).
  destruct (degrade_cases (requests_get (odds_url now) (auth_headers API_KEY)))
    as (O1 & O2 & O3 & _).
  repeat split; assumption.
Qed.

End Transport.

Example fixtures_url_2024_03_10 :
  fixtures_url (mk_datetime 2024 3 10 9 41 7 250000)
  = "https://v3.football.api-sports.io/fixtures?date=2024-03-10&timezone=UTC".
Proof. reflexivity. Qed.

Lemma fetch_outcomes_witness :
  get_matches "key" (answering (mk_response 429 (Raise JSONDecodeError)))
              (mk_datetime 2024 3 10 9 41 7 250000) = Ok (PList [])
  /\ get_odds "key" (answering (mk_response 200 (Ok (PDict [("errors", PList [])]))))
              (mk_datetime 2024 3 10 9 41 7 250000) = Ok (PList []).
Proof.
  split.
  - exact (proj1 (fetch_outcomes "key" (answering (mk_response 429 (Raise JSONDecodeError)))
                                 (mk_datetime 2024 3 10 9 41 7 250000))
                 (mk_response 429 (Raise JSONDecodeError)) eq_refl
                 ltac:(discriminate)).
  - exact (proj1 (proj2 (proj2 (proj2 (proj2
             (fetch_outcomes "key"
                (answering (mk_response 200 (Ok (PDict [("errors", PList [])]))))
                (mk_datetime 2024 3 10 9 41 7 250000))))))
             (mk_response 200 (Ok (PDict [("errors", PList [])])))
             [("errors", PList [])] eq_refl eq_refl eq_refl eq_refl).
Defined.

(** C4, as stated, fails: when the transport obtains no response, the
    exception leaves [get_matches] and [get_odds]; no empty list is
    returned. *)
Lemma network_failure_propagates :
  get_matches "key" unreachable (mk_datetime 2024 3 10 9 41 7 250000)
  = Raise RequestException
  /\ get_odds "key" unreachable (mk_datetime 2024 3 10 9 41 7 250000)
     = Raise RequestException
  /\ get_matches "key" unreachable (mk_datetime 2024 3 10 9 41 7 250000)
     <> Ok (PList []).
Proof.
  repeat split. discriminate.
Qed.

(** Two more ways out of the fetchers with status 200: a body that is not
    JSON, and a JSON body that is not an object. *)
Lemma body_failures_propagate :
  get_matches "key" (answering (mk_response 200 (Raise JSONDecodeError)))
              (mk_datetime 2024 3 10 9 41 7 250000) = Raise JSONDecodeError
  /\ get_matches "key" (answering (mk_response 200 (Ok (PList []))))
                 (mk_datetime 2024 3 10 9 41 7 250000) = Raise AttributeError.
Proof. split; reflexivity. Qed.

End FetcherFacts.

(* ================================================================== *)
(** ** Facts about the odds normaliser *)
(* ================================================================== *)

Module NormalizerFacts.

Import Datetime Strftime Normalizer Traversal Shape Examples PyFacts ShapeFacts.

Local Open Scope string_scope.
Local Open Scope list_scope.

(** One step of a successful sequence: [x <- m ;; k] returned, so [m]
    returned some [x] and [k x] returned. *)
Ltac bind_step H x E := apply bind_ok in H; destruct H as (x & E & H).

Lemma field_get o key default v : get o key default = Ok v -> field o key default = v.
Proof. unfold field. now intros ->. Qed.

Lemma items_iter o l : iter o = Ok l -> items o = l.
Proof. unfold items. now intros ->. Qed.

(** The test in the code is the allow-list of the specification. *)
Lemma wanted_allow_listed market_name selection :
  wanted market_name selection = true <-> allow_listed market_name selection.
Proof.
  unfold wanted, allow_listed, in_strs, existsb, eq_str.
  rewrite !orb_true_iff.
  split.
  - intros [[H | [H | H]] | H]; try discriminate H.
    + destruct market_name; try discriminate H.
      apply String.eqb_eq in H. left. now subst.
    + destruct market_name; try discriminate H.
      apply String.eqb_eq in H. right. left. now subst.
    + destruct selection; try discriminate H.
      apply String.eqb_eq in H. right. right. now subst.
  - intros [-> | [-> | ->]].
    + left. left. reflexivity.
    + left. right. left. reflexivity.
    + right. reflexivity.
Qed.

Section Host.

Variable tz : host.

Lemma analyze_value_appends league home_team away_team match_time bookmaker
    market_name val filtered_data out :
  analyze_value league home_team away_team match_time bookmaker market_name val
                filtered_data = Ok out ->
  out = filtered_data
        ++ (if wanted market_name (field val "value" (PStr "N/A"))
            then [mk_row league home_team away_team match_time
                         (field bookmaker "name" PNone) market_name
                         (field val "value" (PStr "N/A"))
                         (field val "odd" (PStr "N/A"))]
            else []).
Proof.
  unfold analyze_value. intros H.
  apply bind_ok in H. destruct H as (selection & Es & H).
  apply bind_ok in H. destruct H as (odd & Eo & H).
  rewrite (field_get _ _ _ _ Es), (field_get _ _ _ _ Eo).
  destruct (wanted market_name selection).
  - apply bind_ok in H. destruct H as (name & En & H).
    rewrite (field_get _ _ _ _ (getitem_ok _ _ _ En PNone)). congruence.
  - injection H as <-. now rewrite app_nil_r.
Qed.

Lemma analyze_game_appends game filtered_data out :
  analyze_game tz game filtered_data = Ok out ->
  out = filtered_data ++ rows_of_game tz game.
Proof.
  unfold analyze_game. intros H.
  bind_step H fixture Efix. bind_step H league_ Elg_. bind_step H league Elg.
  bind_step H teams Etm. bind_step H home Ehm. bind_step H home_team Eht.
  bind_step H teams' Etm'. bind_step H away Eaw. bind_step H away_team Eat.
  bind_step H timestamp Ets. bind_step H kickoff Eko.
  bind_step H bookmakers_ Ebk_. bind_step H bookmakers Ebk.
  assert (teams' = teams) by congruence. subst teams'.
  unfold rows_of_game.
  rewrite (field_get _ _ _ _ Ebk_), (items_iter _ _ Ebk).
  apply (for_each_appends _ _ _ _ _ H).
  intros bookmaker s s' _ Hb. unfold analyze_bookmaker in Hb.
  bind_step Hb bets_ Ebt_. bind_step Hb bets Ebt.
  rewrite (field_get _ _ _ _ Ebt_), (items_iter _ _ Ebt).
  apply (for_each_appends _ _ _ _ _ Hb).
  intros bet t t' _ Hbet. unfold analyze_bet in Hbet.
  bind_step Hbet market_name Emk. bind_step Hbet values_ Evl_.
  bind_step Hbet values Evl.
  rewrite (field_get _ _ _ _ Evl_), (items_iter _ _ Evl).
  apply (for_each_appends _ _ _ _ _ Hbet).
  intros val u u' _ Hval.
  rewrite (analyze_value_appends _ _ _ _ _ _ _ _ _ Hval).
  unfold passes, row_of, market_of, selection_of, odd_of, league_of,
    home_team_of, away_team_of, match_time_of.
  cbn [q_game q_bookmaker q_bet q_value].
  rewrite (field_get _ _ _ _ Efix), (field_get _ _ _ _ Elg_),
    (field_get _ _ _ _ Elg), (field_get _ _ _ _ Etm), (field_get _ _ _ _ Ehm),
    (field_get _ _ _ _ Eht), (field_get _ _ _ _ Eaw), (field_get _ _ _ _ Eat),
    (field_get _ _ _ _ Ets), (field_get _ _ _ _ Emk), Eko.
  reflexivity.
Qed.

(** The table the normaliser builds is the traversal of the input. *)
Lemma analyze_odds_traversal odds_data rows :
  analyze_odds tz odds_data = Ok rows -> rows = traversal_rows tz odds_data.
Proof.
  unfold analyze_odds. intros H. bind_step H games Egames.
  unfold traversal_rows. rewrite (items_iter _ _ Egames).
  change (rows = [] ++ flat_map (rows_of_game tz) games).
  apply (for_each_appends _ _ _ _ _ H).
  intros game s s' _. apply analyze_game_appends.
Qed.


Lemma flat_map_singletons {A B : Type} (p : A -> bool) (f : A -> B) l :
  flat_map (fun x => if p x then [f x] else []) l = map f (filter p l).
Proof.
  induction l as [ | x l IH]; cbn; [reflexivity | ].
  destruct (p x); cbn; now rewrite IH.
Qed.

Lemma map_filter_flat_map {A B C : Type} (p : B -> bool) (f : B -> C)
    (g : A -> list B) l :
  map f (filter p (flat_map g l)) = flat_map (fun x => map f (filter p (g x))) l.
Proof.
  induction l as [ | x l IH]; cbn; [reflexivity | ].
  now rewrite filter_app, map_app, IH.
Qed.

Lemma filter_map_comm {A B : Type} (p : B -> bool) (g : A -> B) l :
  filter p (map g l) = map g (filter (fun x => p (g x)) l).
Proof.
  induction l as [ | x l IH]; cbn; [reflexivity | ].
  destruct (p (g x)); cbn; now rewrite IH.
Qed.

(** The traversal, selection by selection: the rows of the selections that
    pass, in the order of [quotes]. *)
Lemma traversal_rows_quotes odds_data :
  traversal_rows tz odds_data
  = map (row_of tz) (filter passes (quotes odds_data)).
Proof.
  unfold traversal_rows, quotes, rows_of_game, quotes_of_game.
  rewrite map_filter_flat_map. apply flat_map_ext. intros game.
  rewrite map_filter_flat_map. apply flat_map_ext. intros bookmaker.
  rewrite map_filter_flat_map. apply flat_map_ext. intros bet.
  rewrite filter_map_comm, map_map. cbn zeta.
  now rewrite flat_map_singletons.
Qed.

Lemma analyze_odds_quotes odds_data rows :
  analyze_odds tz odds_data = Ok rows ->
  rows = map (row_of tz) (filter passes (quotes odds_data)).
Proof.
  intros H. rewrite <- traversal_rows_quotes. now apply analyze_odds_traversal.
Qed.

(** C7. On an input of the accepted shape [analyze_odds] returns; and
    whenever it returns, its rows are the traversal of the input, fixture
    after fixture, then bookmaker, market and selection: the rows of the
    selections that pass the filter, in that order, one row for every such
    selection, so that nothing is sorted and equal rows are kept. *)
Theorem rows_in_traversal_order odds_data :
  (odds_shape tz odds_data = true ->
   exists rows, analyze_odds tz odds_data = Ok rows)
  /\ (forall rows,
        analyze_odds tz odds_data = Ok rows ->
        rows = traversal_rows tz odds_data
        /\ rows = map (row_of tz) (filter passes (quotes odds_data))
        /\ List.length rows = List.length (filter passes (quotes odds_data))).
Proof.
  split; [apply analyze_odds_total | ].
  intros rows H. pose proof (analyze_odds_traversal _ _ H) as T.
  pose proof (analyze_odds_quotes _ _ H) as Q.
  repeat split; try assumption.
  rewrite Q at 1. apply length_map.
Qed.

(** Every row of a fixture record shows that record's kickoff time. *)
Lemma rows_of_game_Hora game r :
  In r (rows_of_game tz game) -> Hora r = match_time_of tz game.
Proof.
  unfold rows_of_game. intros H.
  apply in_flat_map in H. destruct H as (bookmaker & _ & H).
  apply in_flat_map in H. destruct H as (bet & _ & H).
  apply in_flat_map in H. destruct H as (val & _ & H).
  cbn zeta in H. destruct (passes _); [ | destruct H].
  destruct H as [<- | []]. reflexivity.
Qed.

(** A fixture record is processed only if its kickoff time can be read. *)
Lemma analyze_game_kickoff game filtered_data out :
  analyze_game tz game filtered_data = Ok out ->
  exists entries fx kickoff,
    game = PDict entries
    /\ lookup "fixture" entries = Some (PDict fx)
    /\ fromtimestamp tz (field (PDict fx) "timestamp" (PInt 0)) = Ok kickoff
    /\ match_time_of tz game = strftime_HM kickoff.
Proof.
  unfold analyze_game. intros H.
  bind_step H fixture Efix. bind_step H league_ Elg_. bind_step H league Elg.
  bind_step H teams Etm. bind_step H home Ehm. bind_step H home_team Eht.
  bind_step H teams' Etm'. bind_step H away Eaw. bind_step H away_team Eat.
  bind_step H timestamp Ets. bind_step H kickoff Eko.
  destruct (get_ok _ _ _ _ Efix) as (entries & -> & Hfix).
  destruct (get_ok _ _ _ _ Ets) as (fx & -> & Hts).
  exists entries, fx, kickoff.
  assert (L : lookup "fixture" entries = Some (PDict fx))
    by (destruct (lookup "fixture" entries); [congruence | discriminate]).
  split; [reflexivity | ]. split; [exact L | ].
  unfold match_time_of.
  rewrite (field_get _ _ _ _ Efix), (field_get _ _ _ _ Ets), Eko.
  split; reflexivity.
Qed.

Lemma digit_value_digit k : 0 <= k <= 9 -> digit_value (digit k) = Some k.
Proof.
  intros H.
  assert (C : k = 0 \/ k = 1 \/ k = 2 \/ k = 3 \/ k = 4 \/ k = 5 \/ k = 6
              \/ k = 7 \/ k = 8 \/ k = 9) by lia.
  repeat (destruct C as [-> | C]; [reflexivity | ]). now subst k.
Qed.

Lemma well_formed_strftime_HM t :
  0 <= hour t < 24 -> 0 <= minute t < 60 -> well_formed_HM (strftime_HM t) = true.
Proof.
  intros Hh Hm. unfold strftime_HM, two_digits. cbn [append].
  unfold well_formed_HM.
  rewrite !digit_value_digit by (Z.div_mod_to_equations; lia).
  rewrite Ascii.eqb_refl. cbn [andb].
  apply andb_true_intro. split; apply Z.ltb_lt; Z.div_mod_to_equations; lia.
Qed.

(** What [fromtimestamp] returns shows the hour and minute of the local
    day: the timestamp's seconds, moved by the offset of local time from
    UTC in force then. *)
Lemma fromtimestamp_clock timestamp t :
  fromtimestamp tz timestamp = Ok t ->
  exists secs us,
    timeval tz timestamp = Ok (secs, us)
    /\ hour t = (secs + utcoffset tz secs) mod 86400 / 3600
    /\ minute t = (secs + utcoffset tz secs) mod 86400 mod 3600 / 60.
Proof.
  unfold fromtimestamp. intros H. bind_step H tv Etv.
  destruct tv as [secs us].
  bind_step H tm Etm. bind_step H result_seconds Ers.
  bind_step H probe_seconds Eps. bind_step H probe Epr.
  injection H as <-. cbn [hour minute].
  unfold localtime in Etm.
  destruct (ord2ymd _) as [[y m] d].
  destruct (fits_int _); [ | discriminate].
  injection Etm as <-. cbn [hour minute].
  exists secs, us. repeat split. exact Etv.
Qed.

(** [fromtimestamp] returns a wall-clock time of the day. *)
Lemma fromtimestamp_time_of_day timestamp t :
  fromtimestamp tz timestamp = Ok t -> 0 <= hour t < 24 /\ 0 <= minute t < 60.
Proof.
  intros H. destruct (fromtimestamp_clock _ _ H) as (secs & us & _ & -> & ->).
  Z.div_mod_to_equations. lia.
Qed.

Lemma digit_decimal_digit k : 0 <= k <= 9 -> digit k = decimal_digit k.
Proof.
  intros H.
  assert (C : k = 0 \/ k = 1 \/ k = 2 \/ k = 3 \/ k = 4 \/ k = 5 \/ k = 6
              \/ k = 7 \/ k = 8 \/ k = 9) by lia.
  repeat (destruct C as [-> | C]; [reflexivity | ]). now subst k.
Qed.

(** [strftime("%H:%M")] writes the hour and the minute as a reader expects
    them. *)
Lemma strftime_HM_clock_text t :
  0 <= hour t < 24 -> 0 <= minute t < 60 ->
  strftime_HM t = clock_text (hour t * 60 + minute t).
Proof.
  intros Hh Hm. unfold strftime_HM, two_digits, clock_text. cbn [append].
  replace ((hour t * 60 + minute t) / 60) with (hour t)
    by (Z.div_mod_to_equations; lia).
  replace ((hour t * 60 + minute t) mod 60) with (minute t)
    by (Z.div_mod_to_equations; lia).
  rewrite !digit_decimal_digit by (Z.div_mod_to_equations; lia).
  replace (hour t / 10 mod 10) with (hour t / 10)
    by (Z.div_mod_to_equations; lia).
  replace (minute t / 10 mod 10) with (minute t / 10)
    by (Z.div_mod_to_equations; lia).
  reflexivity.
Qed.

(** The text of a kickoff time is that of the minute of the local day on
    which the timestamp falls. *)
Lemma fromtimestamp_clock_text timestamp t :
  fromtimestamp tz timestamp = Ok t ->
  exists secs us,
    timeval tz timestamp = Ok (secs, us)
    /\ strftime_HM t = clock_text ((secs + utcoffset tz secs) mod 86400 / 60).
Proof.
  intros H. destruct (fromtimestamp_time_of_day _ _ H) as [Bh Bm].
  destruct (fromtimestamp_clock _ _ H) as (secs & us & Etv & Eh & Em).
  exists secs, us. split; [exact Etv | ].
  rewrite (strftime_HM_clock_text t Bh Bm). f_equal.
  rewrite Eh, Em. Z.div_mod_to_equations. lia.
Qed.

Lemma well_formed_clock_text minute_of_day :
  0 <= minute_of_day < 1440 -> well_formed_HM (clock_text minute_of_day) = true.
Proof.
  intros B.
  pose (t := mk_datetime 1 1 1 (minute_of_day / 60) (minute_of_day mod 60) 0 0).
  assert (Bh : 0 <= hour t < 24) by (cbn [t hour]; Z.div_mod_to_equations; lia).
  assert (Bm : 0 <= minute t < 60) by (cbn [t minute]; Z.div_mod_to_equations; lia).
  pose proof (well_formed_strftime_HM t Bh Bm) as W.
  rewrite (strftime_HM_clock_text t Bh Bm) in W. cbn [t hour minute] in W.
  replace (minute_of_day / 60 * 60 + minute_of_day mod 60) with minute_of_day in W
    by (Z.div_mod_to_equations; lia).
  exact W.
Qed.

(** C2. On an input of the accepted shape [analyze_odds] returns; and
    whenever it returns, a selection of the input has its row in the output
    if and only if its market is named exactly "Match Winner" or
    "Draw No Bet" or the selection is labelled exactly "Draw"; every output
    row satisfies that disjunction; there are as many rows as selections
    that satisfy it; and a single selection labelled "Draw" under a market
    of any name gives exactly one row. *)
Theorem filter_is_the_allow_list :
  (forall odds_data,
     odds_shape tz odds_data = true ->
     exists rows, analyze_odds tz odds_data = Ok rows)
  /\ (forall odds_data rows,
        analyze_odds tz odds_data = Ok rows ->
        (forall q, In q (quotes odds_data) ->
           (In (row_of tz q) rows
            <-> allow_listed (market_of q) (selection_of q)))
        /\ (forall r, In r rows -> allow_listed (Mercado r) (Seleccion r))
        /\ List.length rows = List.length (filter passes (quotes odds_data)))
  /\ (forall timestamp kickoff market_name odd,
        fromtimestamp tz (PInt timestamp) = Ok kickoff ->
        analyze_odds tz (draw_under_market timestamp market_name odd)
        = Ok [mk_row (PStr "Desconocida") (PStr "Desconocido") (PStr "Desconocido")
                     (strftime_HM kickoff) (PStr "BookX") market_name
                     (PStr "Draw") odd]).
Proof.
  split; [apply analyze_odds_total | ]. split.
  - intros odds_data rows H. rewrite (analyze_odds_quotes _ _ H).
    assert (R : forall r, In r (map (row_of tz) (filter passes (quotes odds_data))) ->
                allow_listed (Mercado r) (Seleccion r)).
    { intros r Hr. apply in_map_iff in Hr. destruct Hr as (q & <- & Hq).
      apply filter_In in Hq. destruct Hq as [_ Hq].
      now apply wanted_allow_listed. }
    split; [ | split; [exact R | apply length_map]].
    intros q Hq. split.
    + intros Hin. exact (R _ Hin).
    + intros Ha. apply in_map. apply filter_In. split; [exact Hq | ].
      now apply wanted_allow_listed.
  - intros timestamp kickoff market_name odd E.
    unfold analyze_odds, draw_under_market.
    cbn [iter bind for_each]. unfold analyze_game.
    cbn [get lookup String.eqb Ascii.eqb Bool.eqb bind]. rewrite E.
    cbn [bind iter for_each]. unfold analyze_bookmaker.
    cbn [get lookup String.eqb Ascii.eqb Bool.eqb bind iter for_each].
    unfold analyze_bet.
    cbn [get lookup String.eqb Ascii.eqb Bool.eqb bind iter for_each].
    unfold analyze_value.
    cbn [get lookup String.eqb Ascii.eqb Bool.eqb bind].
    replace (wanted market_name (PStr "Draw")) with true
      by (symmetry; apply wanted_allow_listed; right; right; reflexivity).
    reflexivity.
Qed.

(** C6. The end-to-end scenario: for a kickoff timestamp that the host
    renders as 15:30, the payload with one fixture of "Test League" (home
    "A", away "B") and the bookmaker "BookX" offering "Match Winner" at
    Home 1.5, Draw 3.2 and Away 2.1 gives exactly three rows, which carry
    those values and the selections and odds in input order. *)
Theorem test_league_scenario timestamp kickoff :
  fromtimestamp tz (PInt timestamp) = Ok kickoff ->
  hour kickoff = 15 -> minute kickoff = 30 ->
  analyze_odds tz (test_league_payload timestamp)
  = Ok [test_league_row "Home" 1.5; test_league_row "Draw" 3.2;
        test_league_row "Away" 2.1].
Proof.
  intros E Hh Hm.
  assert (T : strftime_HM kickoff = "15:30")
    by (unfold strftime_HM; rewrite Hh, Hm; reflexivity).
  unfold analyze_odds, test_league_payload.
  cbn [iter bind for_each]. unfold analyze_game.
  cbn [get lookup String.eqb Ascii.eqb Bool.eqb bind]. rewrite E.
  cbn [bind]. cbv zeta. rewrite T. reflexivity.
Qed.

(** C9. A record without the "fixture" key makes the loop body raise
    [AttributeError] (the [.get] on the [None] default); an input that
    holds such a record makes [analyze_odds] raise; and [analyze_odds]
    returns only if every record maps "fixture" to a dictionary. *)
Theorem fixture_is_required :
  (forall entries filtered_data,
     lookup "fixture" entries = None ->
     analyze_game tz (PDict entries) filtered_data = Raise AttributeError)
  /\ (forall odds_data games entries,
        iter odds_data = Ok games -> In (PDict entries) games ->
        lookup "fixture" entries = None ->
        raises (analyze_odds tz odds_data))
  /\ (forall odds_data rows game,
        analyze_odds tz odds_data = Ok rows -> In game (items odds_data) ->
        exists entries fx,
          game = PDict entries /\ lookup "fixture" entries = Some (PDict fx)).
Proof.
  assert (A : forall entries filtered_data,
             lookup "fixture" entries = None ->
             analyze_game tz (PDict entries) filtered_data = Raise AttributeError).
  { intros entries filtered_data L. unfold analyze_game.
    rewrite (get_absent _ _ _ L). cbn [bind].
    repeat match goal with
    | |- bind (get PNone _ _) _ = _ => reflexivity
    | |- bind (get ?o ?k ?d) _ = _ =>
        let E := fresh "E" in
        destruct (get o k d) as [? | ?] eqn:E; cbn [bind];
        [ | now rewrite (get_raise _ _ _ _ E)]
    end. }
  split; [exact A | ]. split.
  - intros odds_data games entries Ei Hin L. unfold analyze_odds.
    rewrite Ei. cbn [bind].
    apply (for_each_raises (analyze_game tz) games (PDict entries) Hin).
    intros s. exists AttributeError. now apply A.
  - intros odds_data rows game H Hin. unfold analyze_odds in H.
    bind_step H games Ei. rewrite (items_iter _ _ Ei) in Hin.
    destruct (for_each_ok_each _ _ _ _ H game Hin) as (s1 & s2 & K).
    destruct (analyze_game_kickoff _ _ _ K) as (entries & fx & _ & -> & L & _).
    now exists entries, fx.
Qed.

(** C10. When the "fixture" dictionary of a record has no "timestamp", the
    timestamp is 0: [fromtimestamp(0)] returns, and every row emitted for
    that record shows the Unix epoch in the host's local time, that is, the
    hour and the minute that the host's offset from UTC at second 0 makes
    of 00:00 (at an offset of five and a half hours, "05:30"). And every
    row of every output holds the hour:minute text of the minute of the
    local day on which the timestamp of its record falls, a well-formed
    text, never "N/A". *)
Theorem missing_timestamp_shows_epoch :
  (forall before game after entries fx rows,
     analyze_odds tz (PList (before ++ game :: after)) = Ok rows ->
     game = PDict entries ->
     lookup "fixture" entries = Some (PDict fx) ->
     lookup "timestamp" fx = None ->
     exists epoch rows1 rows2 rows3,
       fromtimestamp tz (PInt 0) = Ok epoch
       /\ hour epoch = utcoffset tz 0 mod 86400 / 3600
       /\ minute epoch = utcoffset tz 0 mod 86400 mod 3600 / 60
       /\ analyze_odds tz (PList before) = Ok rows1
       /\ analyze_game tz game rows1 = Ok (rows1 ++ rows2)
       /\ rows = rows1 ++ rows2 ++ rows3
       /\ Forall (fun r => Hora r = strftime_HM epoch
                           /\ Hora r = clock_text (utcoffset tz 0 mod 86400 / 60))
                 rows2)
  /\ (forall odds_data rows,
        analyze_odds tz odds_data = Ok rows ->
        Forall (fun r =>
                  (exists game secs us,
                     In game (items odds_data)
                     /\ timeval tz (field (field game "fixture" PNone)
                                          "timestamp" (PInt 0))
                        = Ok (secs, us)
                     /\ Hora r
                        = clock_text ((secs + utcoffset tz secs) mod 86400 / 60))
                  /\ well_formed_HM (Hora r) = true
                  /\ Hora r <> "N/A")
               rows).
Proof.
  split.
  - intros before game after entries fx rows H -> Lf Lt.
    unfold analyze_odds in H. cbn [iter bind] in H.
    rewrite for_each_app in H. bind_step H rows1 E1.
    cbn [for_each] in H.
    destruct (analyze_game tz (PDict entries) rows1) as [mid | e] eqn:Eg;
      [ | discriminate].
    pose proof (analyze_game_appends _ _ _ Eg) as ->.
    destruct (analyze_game_kickoff _ _ _ Eg)
      as (entries' & fx' & epoch & [= <-] & Lf' & Ek & Em).
    assert (fx' = fx) by congruence. subst fx'.
    unfold field in Ek. rewrite (get_absent _ _ _ Lt) in Ek.
    destruct (fromtimestamp_clock _ _ Ek) as (secs & us & Etv & Eh & Emi).
    destruct (fromtimestamp_clock_text _ _ Ek) as (secs' & us' & Etv' & Etx).
    cbn in Etv, Etv'. injection Etv as <- <-. injection Etv' as <- <-.
    rewrite Z.add_0_l in Eh, Emi, Etx.
    exists epoch, rows1, (rows_of_game tz (PDict entries)),
      (flat_map (rows_of_game tz) after).
    split; [exact Ek | ]. split; [exact Eh | ]. split; [exact Emi | ].
    split; [exact E1 | ]. split; [exact Eg | ]. split.
    + rewrite app_assoc. apply (for_each_appends _ _ _ _ _ H).
      intros g s s' _. apply analyze_game_appends.
    + apply Forall_forall. intros r Hr.
      rewrite (rows_of_game_Hora _ _ Hr), Em. split; [reflexivity | exact Etx].
  - intros odds_data rows H. apply Forall_forall. intros r Hr.
    rewrite (analyze_odds_traversal _ _ H) in Hr.
    unfold traversal_rows in Hr. apply in_flat_map in Hr.
    destruct Hr as (game & Hg & Hr).
    pose proof Hg as Hitems.
    unfold analyze_odds in H. bind_step H games Ei.
    rewrite (items_iter _ _ Ei) in Hg.
    destruct (for_each_ok_each _ _ _ _ H game Hg) as (s1 & s2 & K).
    destruct (analyze_game_kickoff _ _ _ K)
      as (entries & fx & t & Egame & Lf & Ek & Em).
    rewrite (rows_of_game_Hora _ _ Hr), Em.
    destruct (fromtimestamp_time_of_day _ _ Ek) as [Bh Bm].
    pose proof (well_formed_strftime_HM t Bh Bm) as W.
    destruct (fromtimestamp_clock_text _ _ Ek) as (secs & us & Etv & Etx).
    split; [ | split; [exact W | ]].
    + exists game, secs, us. split; [exact Hitems | ].
      split; [ | exact Etx].
      subst game. unfold field at 2. cbn [get]. rewrite Lf. exact Etv.
    + intros N. rewrite N in W. discriminate W.
Qed.

End Host.

Lemma filter_is_the_allow_list_witness :
  exists rows,
    analyze_odds utc_host over_under_payload = Ok rows
    /\ List.length rows = 1%nat
    /\ forall r, In r rows -> allow_listed (Mercado r) (Seleccion r).
Proof.
  destruct (filter_is_the_allow_list utc_host) as (Total & Filter & _).
  destruct (Total over_under_payload eq_refl) as (rows & E).
  destruct (Filter _ _ E) as (_ & Allowed & Count).
  exists rows. split; [exact E | ]. split; [ | exact Allowed].
  rewrite Count. reflexivity.
Defined.

Lemma rows_in_traversal_order_witness :
  exists rows,
    analyze_odds utc_host (test_league_payload 55800) = Ok rows
    /\ rows = traversal_rows utc_host (test_league_payload 55800)
    /\ List.length rows = 3%nat.
Proof.
  destruct (rows_in_traversal_order utc_host (test_league_payload 55800))
    as (Total & Order).
  destruct (Total eq_refl) as (rows & E).
  destruct (Order rows E) as (T & _ & Count).
  exists rows. split; [exact E | ]. split; [exact T | ].
  rewrite Count. reflexivity.
Defined.

(** A record without "fixture" after a well-formed one. *)
Lemma fixture_is_required_witness :
  raises (analyze_odds utc_host
            (PList [PDict [("fixture", PDict [("timestamp", PInt 55800)])];
                    PDict [("league", PDict [("name", PStr "Test League")])]])).
Proof.
  destruct (fixture_is_required utc_host) as (_ & Raises & _).
  apply (Raises _
                [PDict [("fixture", PDict [("timestamp", PInt 55800)])];
                 PDict [("league", PDict [("name", PStr "Test League")])]]
                [("league", PDict [("name", PStr "Test League")])]).
  - reflexivity.
  - right. left. reflexivity.
  - reflexivity.
Defined.

(** On a host five and a half hours ahead of UTC the row of a record
    without timestamp shows 05:30. *)
Lemma missing_timestamp_shows_epoch_witness :
  exists rows,
    analyze_game kolkata_host undated_game [] = Ok rows
    /\ rows <> []
    /\ Forall (fun r => Hora r = "05:30") rows.
Proof.
  destruct (missing_timestamp_shows_epoch kolkata_host) as (Epoch & _).
  destruct (Epoch [] undated_game [] _ [("id", PInt 7)] _
                  (eq_refl : analyze_odds kolkata_host (PList [undated_game]) = Ok _)
                  eq_refl eq_refl eq_refl)
    as (epoch & rows1 & rows2 & rows3 & Ee & _ & _ & E1 & Eg & Er & Hr).
  injection E1 as <-.
  exists rows2. split; [exact Eg | ]. split.
  - intros ->. discriminate Eg.
  - apply Forall_forall. intros r Hin.
    exact (proj2 (proj1 (Forall_forall _ _) Hr r Hin)).
Defined.

Lemma test_league_scenario_witness :
  analyze_odds utc_host (test_league_payload 55800)
  = Ok [test_league_row "Home" 1.5; test_league_row "Draw" 3.2;
        test_league_row "Away" 2.1].
Proof.
  exact (test_league_scenario utc_host 55800 (mk_datetime 1970 1 1 15 30 0 0)
           eq_refl eq_refl eq_refl).
Defined.

(** Where a field read with [.get] is absent, the row carries the literal
    placeholder of the code. *)
Lemma placeholders_for_absent_fields entries :
  (lookup "league" entries = None ->
   league_of (PDict entries) = PStr "Desconocida")
  /\ (lookup "teams" entries = None ->
      home_team_of (PDict entries) = PStr "Desconocido"
      /\ away_team_of (PDict entries) = PStr "Desconocido")
  /\ (forall game bookmaker val,
        lookup "name" entries = None ->
        market_of (mk_quote game bookmaker (PDict entries) val)
        = PStr "Desconocido")
  /\ (forall game bookmaker bet,
        lookup "value" entries = None ->
        selection_of (mk_quote game bookmaker bet (PDict entries)) = PStr "N/A")
  /\ (forall game bookmaker bet,
        lookup "odd" entries = None ->
        odd_of (mk_quote game bookmaker bet (PDict entries)) = PStr "N/A").
Proof.
  unfold league_of, home_team_of, away_team_of, market_of, selection_of, odd_of,
    field.
  cbn [get q_bet q_value].
  repeat split; intros; repeat match goal with H : lookup _ _ = None |- _ =>
    rewrite H; clear H end; reflexivity.
Qed.

Example placeholders_in_rows :
  analyze_odds utc_host
    (PList
       [PDict
          [("fixture", PDict []);
           ("bookmakers",
            PList
              [PDict
                 [("name", PStr "BookX");
                  ("bets",
                   PList
                     [PDict [("values", PList [PDict [("value", PStr "Draw")]])];
                      PDict [("name", PStr "Match Winner");
                             ("values", PList [PDict []])]])]])]])
  = Ok [mk_row (PStr "Desconocida") (PStr "Desconocido") (PStr "Desconocido")
               "00:00" (PStr "BookX") (PStr "Desconocido") (PStr "Draw")
               (PStr "N/A");
        mk_row (PStr "Desconocida") (PStr "Desconocido") (PStr "Desconocido")
               "00:00" (PStr "BookX") (PStr "Match Winner") (PStr "N/A")
               (PStr "N/A")].
Proof. reflexivity. Qed.

(** [fromtimestamp] at the ends of its range, on a host on UTC: the first
    local day of year 1 raises [ValueError] (the probe one day earlier
    falls in year 0), the second day is rendered; the last second of year
    9999 is rendered, the next raises [ValueError]; a year that [tm_year]
    cannot hold raises [OSError]; an [int] beyond [time_t] raises
    [OverflowError]; [True] is the second 1; a [str] raises [TypeError]. *)
Example fromtimestamp_edges :
  fromtimestamp utc_host (PInt (-62135596800)) = Raise ValueError
  /\ fromtimestamp utc_host (PInt (-62135510401)) = Raise ValueError
  /\ fromtimestamp utc_host (PInt (-62135510400)) = Ok (mk_datetime 1 1 2 0 0 0 0)
  /\ fromtimestamp utc_host (PInt 253402300799)
     = Ok (mk_datetime 9999 12 31 23 59 59 0)
  /\ fromtimestamp utc_host (PInt 253402300800) = Raise ValueError
  /\ fromtimestamp utc_host (PInt 67768036191676799) = Raise ValueError
  /\ fromtimestamp utc_host (PInt 67768036191676800) = Raise OSError
  /\ fromtimestamp utc_host (PInt (-67768040609740800)) = Raise ValueError
  /\ fromtimestamp utc_host (PInt (-67768040609740801)) = Raise OSError
  /\ fromtimestamp utc_host (PInt (2 ^ 63 - 1)) = Raise OSError
  /\ fromtimestamp utc_host (PInt (2 ^ 63)) = Raise OverflowError
  /\ fromtimestamp utc_host (PBool true) = Ok (mk_datetime 1970 1 1 0 0 1 0)
  /\ fromtimestamp utc_host (PStr "x") = Raise TypeError
  /\ fromtimestamp kolkata_host (PInt 253402300799) = Raise ValueError
  /\ fromtimestamp bogota_host (PInt 0) = Ok (mk_datetime 1969 12 31 19 0 0 0).
Proof. repeat split; vm_compute; reflexivity. Qed.

(** The epoch as three hosts show it. *)
Example epoch_on_sample_hosts :
  map Hora (rows_of_game utc_host undated_game) = ["00:00"]
  /\ map Hora (rows_of_game bogota_host undated_game) = ["19:00"]
  /\ map Hora (rows_of_game kolkata_host undated_game) = ["05:30"]
  /\ analyze_game bogota_host undated_game []
     = Ok [mk_row (PStr "Desconocida") (PStr "Desconocido") (PStr "Desconocido")
                  "19:00" (PStr "BookX") (PStr "Draw No Bet") (PStr "Home")
                  (PStr "1.40")].
Proof. repeat split. Qed.








(** C3: the code at the failing input. With a selection that passes the
    filter under a bookmaker block without "name", [bookmaker["name"]]
    raises [KeyError] instead of a placeholder being substituted. *)
Lemma nameless_bookmaker_raises :
  analyze_odds utc_host nameless_bookmaker_payload = Raise (KeyError "name").
Proof. reflexivity. Qed.

End NormalizerFacts.

(* ================================================================== *)
(** ** More about the quota reset estimator *)
(* ================================================================== *)

Module QuotaResetEdges.

Import Datetime QuotaReset PyFacts QuotaResetFacts.

(** X1. [get_api_reset_time] returns a timestamp exactly when the hour of
    the current instant is below 16. From 16:00 to midnight the candidate
    hour is 24, the [datetime] constructor raises [ValueError], and so does
    [get_remaining_time], which has no handler. *)
Theorem reset_time_returns_iff_before_16h now :
  valid now = true ->
  ((exists reset, get_api_reset_time now = Ok reset) <-> hour now < 16)
  /\ (16 <= hour now ->
      get_api_reset_time now = Raise ValueError
      /\ forall clock2, get_remaining_time now clock2 = Raise ValueError).
Proof.
  intros V. split; [split | ].
  - intros (reset & E). apply (get_api_reset_time_ok now reset V E).
  - intros H. destruct (reset_time_offset now V H) as (E & _). eauto.
  - intros H. pose proof (get_api_reset_time_from_16h now V H) as E.
    split; [exact E | ]. intros clock2. unfold get_remaining_time. now rewrite E.
Qed.

Lemma reset_time_returns_iff_before_16h_witness :
  get_api_reset_time (mk_datetime 2024 3 10 21 5 0 0) = Raise ValueError
  /\ get_remaining_time (mk_datetime 2024 3 10 21 5 0 0)
                        (mk_datetime 2024 3 10 21 5 0 12)
     = Raise ValueError.
Proof.
  destruct (reset_time_returns_iff_before_16h (mk_datetime 2024 3 10 21 5 0 0)
              eq_refl) as (_ & R).
  destruct (R ltac:(cbn; lia)) as (E & G). split; [exact E | apply G].
Defined.

(** X2. The guard [if reset_time < now] never fires: the candidate built
    at today's date with an hour above the current one is never before
    [now], so [timedelta(hours=8)] is never added and the result, when
    there is one, is the candidate itself. This holds for every field
    values, in range or not. *)
Theorem reset_adjustment_never_applies now :
  (forall reset_time,
     new (year now) (month now) (day now) ((hour now / 8 + 1) * 8) 0 0
     = Ok reset_time ->
     ltb reset_time now = false)
  /\ get_api_reset_time now
     = new (year now) (month now) (day now) ((hour now / 8 + 1) * 8) 0 0.
Proof.
  split.
  - intros reset_time E. exact (candidate_not_before_now now reset_time E).
  - apply get_api_reset_time_new.
Qed.

(** X3. The value of [get_remaining_time], when there is one, lies within
    8 hours above minus the time elapsed between the two clock readings:
    it never exceeds 28800 seconds when the second reading is not before the
    first, and it is above -600 seconds when the second reading is at most
    600 seconds (the time a cached reset time is served) after the first. *)
Theorem remaining_time_bounds clock1 clock2 s :
  valid clock1 = true -> valid clock2 = true ->
  get_remaining_time clock1 clock2 = Ok s ->
  exists us,
    s = Qmake us 1000000
    /\ - td_total_us (sub clock2 clock1) < us
       <= 28800 * 1000000 - td_total_us (sub clock2 clock1)
    /\ (ltb clock2 clock1 = false -> (s <= 28800)%Q)
    /\ (td_total_us (sub clock2 clock1) <= 600 * 1000000 -> (- (600) < s)%Q).
Proof.
  intros V1 V2 H. unfold get_remaining_time in H.
  apply bind_ok in H. destruct H as (reset & E & H). injection H as <-.
  destruct (get_api_reset_time_ok clock1 reset V1 E) as (_ & H16 & Vr).
  destruct (reset_time_offset clock1 V1 H16) as (E' & _ & U).
  rewrite E in E'. injection E' as E'. rewrite <- E' in U. clear E'.
  pose proof (valid_split clock1 V1) as (_ & Bh & Bm & Bs & Bu).
  assert (B : 0 < to_us reset - to_us clock1 <= 28800 * 1000000)
    by (rewrite U; Z.div_mod_to_equations; lia).
  pose proof (td_total_us_sub reset clock2) as D.
  pose proof (td_total_us_sub clock2 clock1) as D21.
  pose proof (ltb_to_us clock2 clock1 V2 V1) as L.
  exists (td_total_us (sub reset clock2)).
  split; [reflexivity | ]. split; [lia | ]. split.
  - intros Hl. unfold total_seconds, Qle. cbn [Qnum Qden].
    assert (~ to_us clock2 < to_us clock1)
      by (intros K; apply L in K; congruence).
    lia.
  - intros Hd. unfold total_seconds, Qlt. cbn [Qnum Qden Qopp]. cbn. lia.
Qed.

Lemma remaining_time_bounds_witness :
  exists s,
    get_remaining_time (mk_datetime 2024 1 1 7 55 0 0)
                       (mk_datetime 2024 1 1 8 3 0 0) = Ok s
    /\ (- (600) < s)%Q /\ (s <= 28800)%Q.
Proof.
  destruct (remaining_time_bounds (mk_datetime 2024 1 1 7 55 0 0)
              (mk_datetime 2024 1 1 8 3 0 0) _ eq_refl eq_refl eq_refl)
    as (us & E & _ & Up & Low).
  eexists. split; [reflexivity | ]. split.
  - apply Low. vm_compute. discriminate.
  - apply Up. reflexivity.
Defined.

(** X14. The estimate is the same at every instant of one 8-hour window
    of a day, so a reset time computed earlier in the window of the second
    clock reading gives the same remaining time as one computed at that
    reading: a stored value is stale only across a boundary. *)
Theorem reset_time_constant_within_window clock1 clock2 :
  year clock1 = year clock2 -> month clock1 = month clock2 ->
  day clock1 = day clock2 -> hour clock1 / 8 = hour clock2 / 8 ->
  get_api_reset_time clock1 = get_api_reset_time clock2
  /\ get_remaining_time clock1 clock2 = get_remaining_time clock2 clock2.
Proof.
  intros Ey Em Ed Eh.
  assert (E : get_api_reset_time clock1 = get_api_reset_time clock2)
    by (rewrite !get_api_reset_time_new; now rewrite Ey, Em, Ed, Eh).
  split; [exact E | ]. unfold get_remaining_time. now rewrite E.
Qed.

Lemma reset_time_constant_within_window_witness :
  get_remaining_time (mk_datetime 2024 3 10 8 0 0 0)
                     (mk_datetime 2024 3 10 15 59 59 999999)
  = get_remaining_time (mk_datetime 2024 3 10 15 59 59 999999)
                       (mk_datetime 2024 3 10 15 59 59 999999).
Proof.
  apply (reset_time_constant_within_window (mk_datetime 2024 3 10 8 0 0 0)
           (mk_datetime 2024 3 10 15 59 59 999999)); reflexivity.
Defined.

End QuotaResetEdges.

(* ================================================================== *)
(** ** More about the fetcher: the body of a 200 response *)
(* ================================================================== *)

Module FetcherBody.

Import Datetime Strftime Fetcher Endpoints Shape FetcherFacts.

Local Open Scope string_scope.

Section Transport.

Variable API_KEY : string.
Variable requests_get : string -> list (string * string) -> result response.

Lemma degrade_body_cases outcome r :
  outcome = Ok r -> status_code r = 200 ->
  (forall e, json r = Raise e -> degrade outcome = Raise e)
  /\ (forall data, json r = Ok data -> is_dict data = false ->
        degrade outcome = Raise AttributeError).
Proof.
  intros -> S. unfold degrade. cbn [bind]. rewrite S. cbn. split.
  - now intros e ->.
  - intros data -> D. cbn [bind]. destruct data; try reflexivity. discriminate D.
Qed.

(** X4. With status 200 and a JSON object that holds "response",
    [get_matches] and [get_odds] return the value under that key as it is:
    nothing checks that it is a list. *)
Theorem fetch_returns_response_field now :
  (forall r entries found,
     requests_get (fixtures_url now) (auth_headers API_KEY) = Ok r ->
     status_code r = 200 -> json r = Ok (PDict entries) ->
     lookup "response" entries = Some found ->
     get_matches API_KEY requests_get now = Ok found)
  /\ (forall r entries found,
        requests_get (odds_url now) (auth_headers API_KEY) = Ok r ->
        status_code r = 200 -> json r = Ok (PDict entries) ->
        lookup "response" entries = Some found ->
        get_odds API_KEY requests_get now = Ok found).
Proof.
  rewrite get_matches_request, get_odds_request. split.
  - intros r entries found E. revert r entries found E.
    exact (proj2 (proj2 (proj2 (degrade_cases _)))).
  - intros r entries found E. revert r entries found E.
    exact (proj2 (proj2 (proj2 (degrade_cases _)))).
Qed.

(** X5. With status 200 the body is parsed without a handler: when
    [response.json()] raises, the exception leaves [get_matches] and
    [get_odds]; when the body is JSON but not an object, [data.get] raises
    [AttributeError]. *)
Theorem fetch_body_failures now :
  (forall r,
     requests_get (fixtures_url now) (auth_headers API_KEY) = Ok r ->
     status_code r = 200 ->
     (forall e, json r = Raise e ->
        get_matches API_KEY requests_get now = Raise e)
     /\ (forall data, json r = Ok data -> is_dict data = false ->
           get_matches API_KEY requests_get now = Raise AttributeError))
  /\ (forall r,
        requests_get (odds_url now) (auth_headers API_KEY) = Ok r ->
        status_code r = 200 ->
        (forall e, json r = Raise e ->
           get_odds API_KEY requests_get now = Raise e)
        /\ (forall data, json r = Ok data -> is_dict data = false ->
              get_odds API_KEY requests_get now = Raise AttributeError)).
Proof.
  rewrite get_matches_request, get_odds_request.
  split; intros r E S; exact (degrade_body_cases _ r E S).
Qed.

End Transport.

Lemma fetch_returns_response_field_witness :
  get_odds "key"
    (answering (mk_response 200 (Ok (PDict [("results", PInt 0);
                                            ("response", PDict [])]))))
    (mk_datetime 2024 3 10 9 41 7 250000)
  = Ok (PDict []).
Proof.
  exact (proj2 (fetch_returns_response_field "key"
                  (answering (mk_response 200
                                (Ok (PDict [("results", PInt 0);
                                            ("response", PDict [])]))))
                  (mk_datetime 2024 3 10 9 41 7 250000))
               _ [("results", PInt 0); ("response", PDict [])] (PDict [])
               eq_refl eq_refl eq_refl eq_refl).
Defined.

Lemma fetch_body_failures_witness :
  get_matches "key" (answering (mk_response 200 (Raise JSONDecodeError)))
              (mk_datetime 2024 3 10 9 41 7 250000) = Raise JSONDecodeError
  /\ get_matches "key" (answering (mk_response 200 (Ok (PList []))))
                 (mk_datetime 2024 3 10 9 41 7 250000) = Raise AttributeError.
Proof.
  split.
  - exact (proj1 (proj1 (fetch_body_failures "key"
                           (answering (mk_response 200 (Raise JSONDecodeError)))
                           (mk_datetime 2024 3 10 9 41 7 250000))
                        _ eq_refl eq_refl)
                 JSONDecodeError eq_refl).
  - exact (proj2 (proj1 (fetch_body_failures "key"
                           (answering (mk_response 200 (Ok (PList []))))
                           (mk_datetime 2024 3 10 9 41 7 250000))
                        _ eq_refl eq_refl)
                 (PList []) eq_refl eq_refl).
Defined.

End FetcherBody.

(* ================================================================== *)
(** ** More about the odds normaliser: domain, composition, exceptions *)
(* ================================================================== *)

Module NormalizerDomain.

Import Datetime Strftime Normalizer Traversal Shape Examples Domain PyFacts.
Import NormalizerFacts.

Local Open Scope string_scope.
Local Open Scope list_scope.

(** [get] on any value, by the total reader [field]. *)
Lemma get_field o key default :
  get o key default
  = if is_dict o then Ok (field o key default) else Raise AttributeError.
Proof.
  destruct o; try reflexivity. unfold field. cbn.
  destruct (lookup key entries); reflexivity.
Qed.

Lemma getitem_present o key :
  returned (getitem o key) = present o key.
Proof.
  destruct o; try reflexivity. unfold present. cbn.
  destruct (lookup key entries); reflexivity.
Qed.

Lemma for_each_appending {A R : Type} (body : A -> list R -> result (list R)) xs :
  appending body -> appending (fun _ : unit => for_each body xs).
Proof.
  intros Hb _ acc. revert acc.
  induction xs as [ | x xs IH]; intros acc; cbn [for_each].
  - cbn. now rewrite app_nil_r.
  - rewrite (Hb x acc). destruct (body x []) as [r | e]; cbn [bind]; [ | reflexivity].
    rewrite (IH (acc ++ r)), (IH r).
    destruct (for_each body xs []) as [r' | e]; cbn [bind]; [ | reflexivity].
    now rewrite app_assoc.
Qed.

Lemma for_each_returned {A R : Type} (body : A -> list R -> result (list R)) xs acc :
  appending body ->
  returned (for_each body xs acc) = forallb (fun x => returned (body x [])) xs.
Proof.
  intros Hb. revert acc.
  induction xs as [ | x xs IH]; intros acc; cbn [for_each forallb]; [reflexivity | ].
  rewrite (Hb x acc). destruct (body x []) as [r | e]; cbn [bind returned andb].
  - apply IH.
  - reflexivity.
Qed.

Lemma for_each_concat {A R : Type} (body : A -> list R -> result (list R)) xs ys :
  appending body ->
  for_each body (xs ++ ys) []
  = bind (for_each body xs [])
         (fun r1 => bind (for_each body ys []) (fun r2 => Ok (r1 ++ r2))).
Proof.
  intros Hb. rewrite for_each_app.
  destruct (for_each body xs []) as [r1 | e]; cbn [bind]; [ | reflexivity].
  exact (for_each_appending body ys Hb tt r1).
Qed.

Lemma forallb_same {A : Type} (f g : A -> bool) l :
  (forall x, f x = g x) -> forallb f l = forallb g l.
Proof.
  intros H. induction l as [ | x l IH]; cbn; [reflexivity | ].
  now rewrite H, IH.
Qed.

(** A loop raises what one turn of its body raised. *)
Lemma for_each_raise {A S : Type} (body : A -> S -> result S) xs :
  forall s e, for_each body xs s = Raise e ->
  exists x s', In x xs /\ body x s' = Raise e.
Proof.
  induction xs as [ | x xs IH]; intros s e H; cbn in H; [discriminate | ].
  destruct (body x s) as [s1 | e1] eqn:E.
  - destruct (IH _ _ H) as (y & s' & Hy & K). exists y, s'. split; [now right | exact K].
  - injection H as <-. exists x, s. split; [now left | exact E].
Qed.

Section Host.

Variable tz : host.

Lemma analyze_value_appending league home_team away_team match_time bookmaker
    market_name :
  appending (analyze_value league home_team away_team match_time bookmaker
                           market_name).
Proof.
  intros val acc. unfold analyze_value.
  destruct (get val "value" (PStr "N/A")) as [selection | ]; cbn [bind];
    [ | reflexivity].
  destruct (get val "odd" (PStr "N/A")) as [odd | ]; cbn [bind]; [ | reflexivity].
  destruct (wanted market_name selection).
  - destruct (getitem bookmaker "name"); reflexivity.
  - cbn. now rewrite app_nil_r.
Qed.

Lemma analyze_bet_appending league home_team away_team match_time bookmaker :
  appending (analyze_bet league home_team away_team match_time bookmaker).
Proof.
  intros bet acc. unfold analyze_bet.
  destruct (get bet "name" (PStr "Desconocido")) as [market_name | ]; cbn [bind];
    [ | reflexivity].
  destruct (get bet "values" (PList [])) as [values_ | ]; cbn [bind];
    [ | reflexivity].
  destruct (iter values_) as [values | ]; cbn [bind]; [ | reflexivity].
  exact (for_each_appending _ values (analyze_value_appending _ _ _ _ _ _) tt acc).
Qed.

Lemma analyze_bookmaker_appending league home_team away_team match_time :
  appending (analyze_bookmaker league home_team away_team match_time).
Proof.
  intros bookmaker acc. unfold analyze_bookmaker.
  destruct (get bookmaker "bets" (PList [])) as [bets_ | ]; cbn [bind];
    [ | reflexivity].
  destruct (iter bets_) as [bets | ]; cbn [bind]; [ | reflexivity].
  exact (for_each_appending _ bets (analyze_bet_appending _ _ _ _ _) tt acc).
Qed.

Lemma analyze_game_appending : appending (analyze_game tz).
Proof.
  intros game acc. unfold analyze_game.
  repeat match goal with
  | |- bind ?m _ = bind (bind ?m _) _ =>
      destruct m; cbn [bind]; [ | reflexivity]
  end.
  exact (for_each_appending _ _ (analyze_bookmaker_appending _ _ _ _) tt acc).
Qed.


Lemma returned_analyze_value league home_team away_team match_time bookmaker
    market_name val :
  returned (analyze_value league home_team away_team match_time bookmaker
                          market_name val [])
  = selection_accepted (present bookmaker "name") market_name val.
Proof.
  unfold analyze_value, selection_accepted. rewrite !get_field.
  destruct (is_dict val); cbn [bind andb]; [ | reflexivity].
  destruct (wanted market_name _); cbn [negb orb].
  - rewrite <- getitem_present. destruct (getitem bookmaker "name"); reflexivity.
  - reflexivity.
Qed.

Lemma returned_analyze_bet league home_team away_team match_time bookmaker bet :
  returned (analyze_bet league home_team away_team match_time bookmaker bet [])
  = bet_accepted (present bookmaker "name") bet.
Proof.
  unfold analyze_bet, bet_accepted, each. rewrite !get_field.
  destruct (is_dict bet); cbn [bind andb]; [ | reflexivity].
  destruct (iter _) as [values | ]; cbn [bind]; [ | reflexivity].
  rewrite for_each_returned by apply analyze_value_appending.
  apply forallb_same. intros val. apply returned_analyze_value.
Qed.

Lemma returned_analyze_bookmaker league home_team away_team match_time bookmaker :
  returned (analyze_bookmaker league home_team away_team match_time bookmaker [])
  = bookmaker_accepted bookmaker.
Proof.
  unfold analyze_bookmaker, bookmaker_accepted, each. rewrite !get_field.
  destruct (is_dict bookmaker); cbn [bind andb]; [ | reflexivity].
  destruct (iter _) as [bets | ]; cbn [bind]; [ | reflexivity].
  rewrite for_each_returned by apply analyze_bet_appending.
  apply forallb_same. intros bet. apply returned_analyze_bet.
Qed.

Lemma returned_analyze_game game :
  returned (analyze_game tz game []) = game_accepted tz game.
Proof.
  unfold analyze_game, game_accepted, each, readable_timestamp.
  repeat (rewrite ?get_field;
          match goal with
          | |- context [if is_dict ?o then _ else _] =>
              let E := fresh "E" in
              destruct (is_dict o) eqn:E; cbn [bind andb returned];
              [ | first [reflexivity | congruence]]
          end).
  destruct (fromtimestamp tz _) as [kickoff | ]; cbn [bind andb returned];
    [ | reflexivity].
  destruct (iter _) as [bookmakers | ]; cbn [bind]; [ | reflexivity].
  rewrite for_each_returned by apply analyze_bookmaker_appending.
  apply forallb_same. intros bookmaker. apply returned_analyze_bookmaker.
Qed.

Lemma returned_analyze_odds odds_data :
  returned (analyze_odds tz odds_data) = accepted tz odds_data.
Proof.
  unfold analyze_odds, accepted, each.
  destruct (iter odds_data) as [games | ]; cbn [bind]; [ | reflexivity].
  rewrite for_each_returned by apply analyze_game_appending.
  apply forallb_same. intros game. apply returned_analyze_game.
Qed.

(** X7. [analyze_odds] returns a table exactly on the inputs that
    [accepted] describes: an iterable of dictionaries; in each, "league",
    "teams", "home" and "away" absent or dictionaries, "fixture" a dictionary
    whose timestamp (0 when absent) the host can render, "bookmakers" absent
    or an iterable of dictionaries; and so on down to the selections, where
    a bookmaker block needs its "name" only if one of its selections passes
    the filter. On every other input it raises. *)
Theorem returns_exactly_on_accepted odds_data :
  (accepted tz odds_data = true <-> exists rows, analyze_odds tz odds_data = Ok rows)
  /\ (accepted tz odds_data = false <-> raises (analyze_odds tz odds_data)).
Proof.
  rewrite <- returned_analyze_odds. unfold raises.
  destruct (analyze_odds tz odds_data) as [rows | e]; cbn [returned]; split; split;
    try discriminate; try (intros (? & ?); discriminate); eauto.
Qed.

(** X8. The table of a concatenation is the concatenation of the tables:
    analysing [xs ++ ys] raises what the analysis of [xs] raises, else what
    the analysis of [ys] raises, else returns the rows of [xs] followed by
    the rows of [ys]. *)
Theorem analyze_odds_concat xs ys :
  analyze_odds tz (PList (xs ++ ys))
  = bind (analyze_odds tz (PList xs))
         (fun rows1 =>
            bind (analyze_odds tz (PList ys))
                 (fun rows2 => Ok (rows1 ++ rows2))).
Proof.
  unfold analyze_odds. cbn [iter bind].
  apply for_each_concat. apply analyze_game_appending.
Qed.


(** X6. Inputs that are not lists: [None], a [bool], an [int] or a [float]
    make [analyze_odds] raise [TypeError]; a dictionary or a string that is
    not empty makes it raise [AttributeError] (its keys or characters are
    strings, which have no [.get]); an empty dictionary, string or list
    gives the empty table. *)
Theorem analyze_odds_on_other_types :
  analyze_odds tz PNone = Raise TypeError
  /\ (forall b, analyze_odds tz (PBool b) = Raise TypeError)
  /\ (forall n, analyze_odds tz (PInt n) = Raise TypeError)
  /\ (forall x, analyze_odds tz (PFloat x) = Raise TypeError)
  /\ (forall key v rest,
        analyze_odds tz (PDict ((key, v) :: rest)) = Raise AttributeError)
  /\ (forall c s, analyze_odds tz (PStr (String c s)) = Raise AttributeError)
  /\ analyze_odds tz (PDict []) = Ok []
  /\ analyze_odds tz (PStr "") = Ok []
  /\ analyze_odds tz (PList []) = Ok [].
Proof.
  repeat split; reflexivity.
Qed.

Lemma bind_raise_cases {A B : Type} (m : result A) (k : A -> result B) e :
  bind m k = Raise e -> m = Raise e \/ exists a, m = Ok a /\ k a = Raise e.
Proof.
  destruct m as [a | e']; cbn; intros H; [right; eauto | left; congruence].
Qed.

Lemma iter_raise o e : iter o = Raise e -> e = TypeError.
Proof. destruct o; cbn; congruence. Qed.

Lemma getitem_raise o key e :
  getitem o key = Raise e ->
  e = TypeError \/ (e = KeyError key /\ present o key = false).
Proof.
  destruct o; cbn; try (intros [= <-]; now left).
  unfold present. cbn. destruct (lookup key entries); [discriminate | ].
  intros [= <-]. now right.
Qed.

Lemma analyze_value_raise league home_team away_team match_time bookmaker
    market_name val acc e :
  analyze_value league home_team away_team match_time bookmaker market_name
                val acc = Raise e ->
  e = TypeError \/ e = AttributeError
  \/ (e = KeyError "name" /\ unnamed_pass bookmaker market_name val).
Proof.
  unfold analyze_value. intros H.
  apply bind_raise_cases in H. destruct H as [H | (selection & Es & H)];
    [right; left; exact (get_raise _ _ _ _ H) | ].
  apply bind_raise_cases in H. destruct H as [H | (odd & Eo & H)];
    [right; left; exact (get_raise _ _ _ _ H) | ].
  destruct (wanted market_name selection) eqn:W; [ | discriminate].
  apply bind_raise_cases in H. destruct H as [H | (name & _ & H)]; [ | discriminate].
  destruct (getitem_raise _ _ _ H) as [-> | [-> P]]; [now left | ].
  right. right. split; [reflexivity | ]. split; [ | exact P].
  now rewrite (field_get _ _ _ _ Es).
Qed.

Lemma analyze_bet_raise league home_team away_team match_time bookmaker bet acc e :
  analyze_bet league home_team away_team match_time bookmaker bet acc = Raise e ->
  e = TypeError \/ e = AttributeError
  \/ (e = KeyError "name"
      /\ exists val,
           In val (items (field bet "values" (PList [])))
           /\ unnamed_pass bookmaker (field bet "name" (PStr "Desconocido")) val).
Proof.
  unfold analyze_bet. intros H.
  apply bind_raise_cases in H. destruct H as [H | (market_name & Em & H)];
    [right; left; exact (get_raise _ _ _ _ H) | ].
  apply bind_raise_cases in H. destruct H as [H | (values_ & Ev & H)];
    [right; left; exact (get_raise _ _ _ _ H) | ].
  apply bind_raise_cases in H. destruct H as [H | (values & Ei & H)];
    [left; exact (iter_raise _ _ H) | ].
  destruct (for_each_raise _ _ _ _ H) as (val & s & Hin & K).
  destruct (analyze_value_raise _ _ _ _ _ _ _ _ _ K) as [-> | [-> | [-> U]]];
    [now left | now right; left | ].
  right. right. split; [reflexivity | ]. exists val.
  rewrite (field_get _ _ _ _ Ev), (items_iter _ _ Ei), (field_get _ _ _ _ Em).
  now split.
Qed.

Lemma analyze_bookmaker_raise league home_team away_team match_time bookmaker
    acc e :
  analyze_bookmaker league home_team away_team match_time bookmaker acc = Raise e ->
  e = TypeError \/ e = AttributeError
  \/ (e = KeyError "name"
      /\ exists bet val,
           In bet (items (field bookmaker "bets" (PList [])))
           /\ In val (items (field bet "values" (PList [])))
           /\ unnamed_pass bookmaker (field bet "name" (PStr "Desconocido")) val).
Proof.
  unfold analyze_bookmaker. intros H.
  apply bind_raise_cases in H. destruct H as [H | (bets_ & Eb & H)];
    [right; left; exact (get_raise _ _ _ _ H) | ].
  apply bind_raise_cases in H. destruct H as [H | (bets & Ei & H)];
    [left; exact (iter_raise _ _ H) | ].
  destruct (for_each_raise _ _ _ _ H) as (bet & s & Hin & K).
  destruct (analyze_bet_raise _ _ _ _ _ _ _ _ K)
    as [-> | [-> | [-> (val & Hv & U)]]];
    [now left | now right; left | ].
  right. right. split; [reflexivity | ]. exists bet, val.
  rewrite (field_get _ _ _ _ Eb), (items_iter _ _ Ei).
  split; [exact Hin | split; [exact Hv | exact U]].
Qed.

Lemma analyze_game_raise game acc e :
  analyze_game tz game acc = Raise e ->
  e = TypeError \/ e = AttributeError
  \/ (e = KeyError "name"
      /\ exists q,
           In q (quotes_of_game game) /\ passes q = true
           /\ present (q_bookmaker q) "name" = false)
  \/ fromtimestamp tz (field (field game "fixture" PNone) "timestamp" (PInt 0))
     = Raise e.
Proof.
  unfold analyze_game. intros H.
  apply bind_raise_cases in H. destruct H as [H | (fixture & Efx & H)];
    [right; left; exact (get_raise _ _ _ _ H) | ].
  do 8 (apply bind_raise_cases in H; destruct H as [H | (? & ? & H)];
        [right; left; exact (get_raise _ _ _ _ H) | ]).
  apply bind_raise_cases in H. destruct H as [H | (timestamp & Ets & H)];
    [right; left; exact (get_raise _ _ _ _ H) | ].
  apply bind_raise_cases in H. destruct H as [H | (kickoff & Eko & H)].
  { right. right. right.
    now rewrite (field_get _ _ _ _ Efx), (field_get _ _ _ _ Ets). }
  apply bind_raise_cases in H. destruct H as [H | (bookmakers_ & Eb & H)];
    [right; left; exact (get_raise _ _ _ _ H) | ].
  apply bind_raise_cases in H. destruct H as [H | (bookmakers & Ei & H)];
    [left; exact (iter_raise _ _ H) | ].
  destruct (for_each_raise _ _ _ _ H) as (bookmaker & s & Hin & K).
  destruct (analyze_bookmaker_raise _ _ _ _ _ _ _ K)
    as [-> | [-> | [-> (bet & val & Hb & Hv & W & P)]]];
    [now left | now right; left | ].
  right. right. left. split; [reflexivity | ].
  exists (mk_quote game bookmaker bet val). split; [ | split; [exact W | exact P]].
  unfold quotes_of_game.
  rewrite (field_get _ _ _ _ Eb), (items_iter _ _ Ei).
  apply in_flat_map. exists bookmaker. split; [exact Hin | ].
  apply in_flat_map. exists bet. split; [exact Hb | ].
  now apply in_map.
Qed.

(** X9. The exceptions of [analyze_odds] and their causes. It raises only
    [TypeError], [AttributeError], a [KeyError] whose key is "name", or
    what [datetime.fromtimestamp] raises on the timestamp of one of the
    records. A [KeyError] means that the input holds a selection that
    passes the filter under a bookmaker block without "name". *)
Theorem analyze_odds_exceptions odds_data e :
  analyze_odds tz odds_data = Raise e ->
  e = TypeError \/ e = AttributeError
  \/ (e = KeyError "name"
      /\ exists q,
           In q (quotes odds_data) /\ passes q = true
           /\ present (q_bookmaker q) "name" = false)
  \/ (exists game,
        In game (items odds_data)
        /\ fromtimestamp tz (field (field game "fixture" PNone) "timestamp" (PInt 0))
           = Raise e).
Proof.
  unfold analyze_odds. intros H.
  apply bind_raise_cases in H. destruct H as [H | (games & Ei & H)];
    [left; exact (iter_raise _ _ H) | ].
  destruct (for_each_raise _ _ _ _ H) as (game & s & Hin & K).
  destruct (analyze_game_raise _ _ _ K)
    as [-> | [-> | [[-> (q & Hq & W & P)] | F]]];
    [now left | now right; left | | ].
  - right. right. left. split; [reflexivity | ]. exists q.
    split; [ | now split]. unfold quotes. rewrite (items_iter _ _ Ei).
    apply in_flat_map. now exists game.
  - right. right. right. exists game. rewrite (items_iter _ _ Ei). now split.
Qed.

(** X10. A section that is present but is not a dictionary is not treated
    as absent: when the record itself, or its "fixture", "league", "teams",
    "home" or "away" value (a JSON null, say) is not a dictionary, the turn
    of the loop for that record raises [AttributeError]; no placeholder is
    substituted. *)
Theorem sections_must_be_dictionaries game filtered_data :
  is_dict game = false
  \/ is_dict (field game "fixture" PNone) = false
  \/ is_dict (field game "league" (PDict [])) = false
  \/ is_dict (field game "teams" (PDict [])) = false
  \/ is_dict (field (field game "teams" (PDict [])) "home" (PDict [])) = false
  \/ is_dict (field (field game "teams" (PDict [])) "away" (PDict [])) = false ->
  analyze_game tz game filtered_data = Raise AttributeError.
Proof.
  intros H. unfold analyze_game.
  repeat (rewrite ?get_field;
          match goal with
          | |- context [if is_dict ?o then _ else _] =>
              let E := fresh "E" in
              destruct (is_dict o) eqn:E; cbn [bind]; [ | reflexivity]
          end).
  exfalso. intuition congruence.
Qed.


Lemma digit_inj a b : 0 <= a <= 9 -> 0 <= b <= 9 -> digit a = digit b -> a = b.
Proof.
  intros Ha Hb H. apply (f_equal digit_value) in H.
  rewrite !digit_value_digit in H by assumption. congruence.
Qed.

Lemma strftime_HM_inj t1 t2 :
  0 <= hour t1 < 24 -> 0 <= minute t1 < 60 ->
  0 <= hour t2 < 24 -> 0 <= minute t2 < 60 ->
  strftime_HM t1 = strftime_HM t2 -> hour t1 = hour t2 /\ minute t1 = minute t2.
Proof.
  intros Hh1 Hm1 Hh2 Hm2 H. unfold strftime_HM, two_digits in H.
  cbn [append] in H. injection H as H1 H0 M1 M0.
  apply digit_inj in H1; [ | Z.div_mod_to_equations; lia ..].
  apply digit_inj in H0; [ | Z.div_mod_to_equations; lia ..].
  apply digit_inj in M1; [ | Z.div_mod_to_equations; lia ..].
  apply digit_inj in M0; [ | Z.div_mod_to_equations; lia ..].
  split; Z.div_mod_to_equations; lia.
Qed.

Lemma fromtimestamp_int_clock secs t :
  fromtimestamp tz (PInt secs) = Ok t ->
  hour t = (secs + utcoffset tz secs) mod 86400 / 3600
  /\ minute t = (secs + utcoffset tz secs) mod 86400 mod 3600 / 60.
Proof.
  intros H.
  destruct (fromtimestamp_clock tz _ _ H) as (secs' & us & Etv & Eh & Em).
  cbn [timeval] in Etv. destruct (fits_time_t secs); [ | discriminate].
  injection Etv as <- <-. now split.
Qed.

(** X11. The text in "Hora" is exactly the minute of the local day of the
    kickoff: two integer timestamps that the host can render get the same
    text if and only if they fall on the same minute of the local day. The
    date is dropped. *)
Theorem Hora_is_the_local_minute_of_day secs1 secs2 t1 t2 :
  fromtimestamp tz (PInt secs1) = Ok t1 ->
  fromtimestamp tz (PInt secs2) = Ok t2 ->
  (strftime_HM t1 = strftime_HM t2
   <-> local_minute_of_day tz secs1 = local_minute_of_day tz secs2).
Proof.
  intros E1 E2.
  destruct (fromtimestamp_time_of_day tz _ _ E1) as [Bh1 Bm1].
  destruct (fromtimestamp_time_of_day tz _ _ E2) as [Bh2 Bm2].
  destruct (fromtimestamp_int_clock _ _ E1) as [Hh1 Hm1].
  destruct (fromtimestamp_int_clock _ _ E2) as [Hh2 Hm2].
  unfold local_minute_of_day. split.
  - intros H.
    destruct (strftime_HM_inj t1 t2 Bh1 Bm1 Bh2 Bm2 H) as [Eh Em].
    rewrite Hh1, Hh2 in Eh. rewrite Hm1, Hm2 in Em.
    Z.div_mod_to_equations. lia.
  - intros H. unfold strftime_HM.
    assert (Eh : hour t1 = hour t2)
      by (rewrite Hh1, Hh2; Z.div_mod_to_equations; lia).
    assert (Em : minute t1 = minute t2)
      by (rewrite Hm1, Hm2; Z.div_mod_to_equations; lia).
    now rewrite Eh, Em.
Qed.

(** The rows of a record all carry the league and the team names read from
    that record. *)
Lemma rows_of_game_fixture_fields game r :
  In r (rows_of_game tz game) ->
  Liga r = league_of game /\ Local_ r = home_team_of game
  /\ Visitante r = away_team_of game.
Proof.
  unfold rows_of_game. intros H.
  apply in_flat_map in H. destruct H as (bookmaker & _ & H).
  apply in_flat_map in H. destruct H as (bet & _ & H).
  apply in_flat_map in H. destruct H as (val & _ & H).
  cbn zeta in H. destruct (passes _); [ | destruct H].
  destruct H as [<- | []]. now repeat split.
Qed.

(** X12. What the rows of a record show for its league and teams: the
    literal placeholder when the section is absent or, for the league,
    holds no "name"; and a name that is a string, as it is. *)
Theorem absent_sections_show_placeholders entries filtered_data out :
  analyze_game tz (PDict entries) filtered_data = Ok out ->
  exists rows,
    out = filtered_data ++ rows
    /\ (lookup "league" entries = None ->
        Forall (fun r => Liga r = PStr "Desconocida") rows)
    /\ (lookup "teams" entries = None ->
        Forall (fun r => Local_ r = PStr "Desconocido"
                         /\ Visitante r = PStr "Desconocido") rows)
    /\ (forall league,
          lookup "league" entries = Some (PDict league) ->
          lookup "name" league = None ->
          Forall (fun r => Liga r = PStr "Desconocida") rows)
    /\ (forall league name,
          lookup "league" entries = Some (PDict league) ->
          lookup "name" league = Some (PStr name) ->
          Forall (fun r => Liga r = PStr name) rows)
    /\ (forall teams home name,
          lookup "teams" entries = Some (PDict teams) ->
          lookup "home" teams = Some (PDict home) ->
          lookup "name" home = Some (PStr name) ->
          Forall (fun r => Local_ r = PStr name) rows)
    /\ (forall teams away name,
          lookup "teams" entries = Some (PDict teams) ->
          lookup "away" teams = Some (PDict away) ->
          lookup "name" away = Some (PStr name) ->
          Forall (fun r => Visitante r = PStr name) rows).
Proof.
  intros H. exists (rows_of_game tz (PDict entries)).
  split; [exact (analyze_game_appends tz _ _ _ H) | ].
  repeat split.
  - intros L. apply Forall_forall. intros r Hr.
    destruct (rows_of_game_fixture_fields _ _ Hr) as (-> & _).
    unfold league_of, field. cbn [get]. now rewrite L.
  - intros L. apply Forall_forall. intros r Hr.
    destruct (rows_of_game_fixture_fields _ _ Hr) as (_ & -> & ->).
    unfold home_team_of, away_team_of, field. cbn [get]. now rewrite L.
  - intros league L N. apply Forall_forall. intros r Hr.
    destruct (rows_of_game_fixture_fields _ _ Hr) as (-> & _).
    unfold league_of, field. cbn [get]. rewrite L. cbn [get]. now rewrite N.
  - intros league name L N. apply Forall_forall. intros r Hr.
    destruct (rows_of_game_fixture_fields _ _ Hr) as (-> & _).
    unfold league_of, field. cbn [get]. rewrite L. cbn [get]. now rewrite N.
  - intros teams home name L Lh N. apply Forall_forall. intros r Hr.
    destruct (rows_of_game_fixture_fields _ _ Hr) as (_ & -> & _).
    unfold home_team_of, field. cbn [get]. rewrite L. cbn [get]. rewrite Lh.
    cbn [get]. now rewrite N.
  - intros teams away name L La N. apply Forall_forall. intros r Hr.
    destruct (rows_of_game_fixture_fields _ _ Hr) as (_ & _ & ->).
    unfold away_team_of, field. cbn [get]. rewrite L. cbn [get]. rewrite La.
    cbn [get]. now rewrite N.
Qed.

(** X13. A market without "name" is shown as "Desconocido", which is not
    on the allow-list: such a market contributes rows only for its
    selections labelled "Draw". *)
Theorem unnamed_market_gives_only_draws league home_team away_team match_time
    bookmaker entries filtered_data out :
  analyze_bet league home_team away_team match_time bookmaker (PDict entries)
              filtered_data = Ok out ->
  lookup "name" entries = None ->
  exists rows,
    out = filtered_data ++ rows
    /\ Forall (fun r => Mercado r = PStr "Desconocido"
                        /\ Seleccion r = PStr "Draw") rows.
Proof.
  unfold analyze_bet. intros H L.
  rewrite (get_absent _ _ _ L) in H. cbn [bind] in H.
  bind_step H values_ Ev. bind_step H values Ei.
  exists (flat_map
            (fun val =>
               if wanted (PStr "Desconocido") (field val "value" (PStr "N/A"))
               then [mk_row league home_team away_team match_time
                            (field bookmaker "name" PNone) (PStr "Desconocido")
                            (field val "value" (PStr "N/A"))
                            (field val "odd" (PStr "N/A"))]
               else [])
            values).
  split.
  - apply (for_each_appends _ _ _ _ _ H).
    intros val t t' _ Hv. exact (analyze_value_appends _ _ _ _ _ _ _ _ _ Hv).
  - apply Forall_forall. intros r Hr.
    apply in_flat_map in Hr. destruct Hr as (val & _ & Hr).
    destruct (wanted _ _) eqn:W; [ | destruct Hr].
    destruct Hr as [<- | []]. cbn [Mercado Seleccion].
    split; [reflexivity | ].
    apply wanted_allow_listed in W.
    destruct W as [W | [W | W]]; [discriminate W | discriminate W | exact W].
Qed.

End Host.

Lemma sections_must_be_dictionaries_witness :
  analyze_game utc_host
    (PDict [("fixture", PDict [("timestamp", PInt 0)]); ("league", PNone)]) []
  = Raise AttributeError.
Proof.
  apply sections_must_be_dictionaries. right. right. left. reflexivity.
Defined.


Lemma returns_exactly_on_accepted_witness :
  (exists rows, analyze_odds utc_host over_under_payload = Ok rows)
  /\ raises (analyze_odds utc_host nameless_bookmaker_payload).
Proof.
  split.
  - apply (proj1 (returns_exactly_on_accepted utc_host over_under_payload)).
    reflexivity.
  - apply (proj2 (returns_exactly_on_accepted utc_host nameless_bookmaker_payload)).
    reflexivity.
Defined.

Lemma analyze_odds_exceptions_witness :
  exists q,
    In q (quotes nameless_bookmaker_payload) /\ passes q = true
    /\ present (q_bookmaker q) "name" = false.
Proof.
  destruct (analyze_odds_exceptions utc_host nameless_bookmaker_payload
              (KeyError "name") eq_refl)
    as [H | [H | [[_ H] | (game & Hin & H)]]];
    [discriminate H | discriminate H | exact H | ].
  exfalso. destruct Hin as [<- | []]. discriminate H.
Defined.

Lemma Hora_is_the_local_minute_of_day_witness :
  strftime_HM (mk_datetime 1970 1 1 15 30 0 0)
  = strftime_HM (mk_datetime 1970 1 2 15 30 59 0).
Proof.
  apply (Hora_is_the_local_minute_of_day utc_host 55800 142259); reflexivity.
Defined.

Lemma absent_sections_show_placeholders_witness :
  exists rows,
    analyze_game utc_host undated_game [] = Ok rows
    /\ rows <> []
    /\ Forall (fun r => Liga r = PStr "Desconocida") rows.
Proof.
  destruct (absent_sections_show_placeholders utc_host
              [("fixture", PDict [("id", PInt 7)]);
               ("bookmakers",
                PList
                  [PDict
                     [("name", PStr "BookX");
                      ("bets",
                       PList
                         [PDict
                            [("name", PStr "Draw No Bet");
                             ("values",
                              PList [PDict [("value", PStr "Home");
                                            ("odd", PStr "1.40")]])]])]])]
              [] _ eq_refl) as (rows & E & L & _).
  exists rows. cbn [app] in E. rewrite <- E.
  split; [reflexivity | ]. split; [discriminate | ].
  rewrite E. now apply L.
Defined.

Lemma unnamed_market_gives_only_draws_witness :
  exists rows,
    analyze_bet (PStr "L") (PStr "A") (PStr "B") "15:30"
                (PDict [("name", PStr "BookX")])
                (PDict [("values",
                         PList [PDict [("value", PStr "Home"); ("odd", PStr "1.40")];
                                PDict [("value", PStr "Draw"); ("odd", PStr "3.10")]])])
                [] = Ok rows
    /\ List.length rows = 1%nat
    /\ Forall (fun r => Mercado r = PStr "Desconocido"
                        /\ Seleccion r = PStr "Draw") rows.
Proof.
  destruct (unnamed_market_gives_only_draws (PStr "L") (PStr "A") (PStr "B") "15:30"
              (PDict [("name", PStr "BookX")])
              [("values",
                PList [PDict [("value", PStr "Home"); ("odd", PStr "1.40")];
                       PDict [("value", PStr "Draw"); ("odd", PStr "3.10")]])]
              [] _ eq_refl eq_refl) as (rows & E & F).
  exists rows. cbn [app] in E. rewrite <- E.
  split; [reflexivity | ]. split; [reflexivity | ]. rewrite E. exact F.
Defined.

End NormalizerDomain.
